(** * Movie browser ([main_app.py]): loader, filter pipeline, selector, statistics

    A shallow embedding of the Streamlit script [main_app.py] and the
    properties of its loader, its three-stage filter, its random pick and its
    genre histogram.

    Modelling conventions.
    - A pandas [DataFrame] is a list of column names and a list of rows.  A row
      carries the four columns the script reads ([title], [year], [genres],
      [cast]); other columns are never read.  A cell that pandas shows as
      [NaN]/[None] is [None] (for [title], [year]) or [NaN] (for [genres],
      [cast]).
    - Text is ASCII: every statement that depends on how a title or a search
      term is matched says so in a hypothesis ([ascii_text], [ascii_titles]);
      case folding acts on the letters A-Z.
    - The [title] column holds Python strings (dtype object), searched with
      Python's [re].
    - Python exceptions are values: a computation gives [Ok v] or [Raise e].
    - Streamlit widgets are modelled by the value they hand back to the
      script, the slider also by the exception it raises on bounds it
      refuses. *)

From Stdlib Require Import List ListSet Sorted String Ascii ZArith Lia Bool Arith PeanoNat.
Import ListNotations.

Local Open Scope string_scope.
Local Open Scope list_scope.
Local Open Scope Z_scope.

Set Implicit Arguments.

(** ** Exceptions and results *)

Inductive exn : Type :=
| KeyError (key : string)        (* df['missing column'] *)
| ValueError                     (* int(float('nan')) *)
| re_error                       (* re.compile on a malformed pattern *)
| IndexError                     (* .iloc[0] on an empty frame *)
| ConnectionError                (* requests.get *)
| JSONDecodeError                (* response.json() *)
| StreamlitAPIException.         (* a widget refusing its arguments *)

(** The outcome of running a piece of the script.  [Unmodelled] marks a run
    that leaves the part of the [re] pattern syntax described in module [Re];
    nothing is stated about such runs. *)
Inductive result (A : Type) : Type :=
| Ok (a : A)
| Raise (e : exn)
| Unmodelled.

Arguments Ok {A} a.
Arguments Raise {A} e.
Arguments Unmodelled {A}.

Definition bind {A B : Type} (m : result A) (k : A -> result B) : result B :=
  match m with
  | Ok a => k a
  | Raise e => Raise e
  | Unmodelled => Unmodelled
  end.

Notation "x <- m ;; k" := (bind m (fun x => k))
  (at level 61, m at next level, right associativity).

Definition returns {A : Type} (m : result A) : Prop := exists a, m = Ok a.

(** ** Data model *)

(** A cell of a list-valued column ([genres], [cast]). *)
Inductive cell : Type :=
| NaN                            (* missing *)
| ListOf (l : list string)       (* isinstance(x, list) *)
| Scalar (s : string).           (* present, but not a list *)

Record MovieRecord : Type := mkMovie {
  title : option string;
  year : option Z;
  genres : cell;
  cast : cell
}.

Record DataFrame : Type := mkFrame {
  columns : list string;
  rows : list MovieRecord
}.

(** [name in df.columns] *)
Definition has_column (name : string) (df : DataFrame) : bool :=
  existsb (String.eqb name) (columns df).

(** [len(df)] *)
Definition len (df : DataFrame) : nat := List.length (rows df).

(** [df[mask]]: boolean-mask selection keeps the columns and the rows whose
    mask entry is true, in order. *)
Definition select (mask : MovieRecord -> bool) (df : DataFrame) : DataFrame :=
  {| columns := columns df; rows := filter mask (rows df) |}.

(** [df[name]]: a [KeyError] unless the column exists. *)
Definition getitem {A : Type} (name : string) (field : MovieRecord -> A)
    (df : DataFrame) : result (list A) :=
  if has_column name df then Ok (map field (rows df)) else Raise (KeyError name).

(** What the page shows besides the movie list. *)
Inductive element : Type :=
| st_error (text : string) (e : exn)
| st_warning (text : string)
| st_success (text : string).

(** ** Dataset loader (lines 18-39) *)

Definition movie (t : string) (y : Z) (g : list string) : MovieRecord :=
  {| title := Some t; year := Some y; genres := ListOf g; cast := NaN |}.

(** The literal of lines 30-39. *)
Definition fallback : DataFrame :=
  {| columns := ["title"; "year"; "genres"];
     rows :=
       [ movie "The Shawshank Redemption" 1994 ["Drama"];
         movie "The Godfather" 1972 ["Crime"; "Drama"];
         movie "The Dark Knight" 2008 ["Action"; "Drama"];
         movie "Pulp Fiction" 1994 ["Crime"; "Drama"];
         movie "Forrest Gump" 1994 ["Drama"; "Romance"];
         movie "Inception" 2010 ["Action"; "Sci-Fi"];
         movie "The Matrix" 1999 ["Action"; "Sci-Fi"];
         movie "Goodfellas" 1990 ["Crime"; "Drama"];
         movie "The Silence of the Lambs" 1991 ["Crime"; "Thriller"];
         movie "Interstellar" 2014 ["Adventure"; "Drama"; "Sci-Fi"] ] |}.

(** What happened inside the [try] block: one of its three calls raised
    ([requests.get(url)], [response.json()], [pd.DataFrame(...)]), or the
    table was built. *)
Inductive Remote : Type :=
| get_raises (e : exn)
| json_raises (e : exn)
| DataFrame_raises (e : exn)
| delivers (movies : DataFrame).

Definition try_body (net : Remote) : result DataFrame :=
  match net with
  | get_raises e | json_raises e | DataFrame_raises e => Raise e
  | delivers movies => Ok movies
  end.

(** [try: body except Exception as e: handler(e)] *)
Definition try_except {A : Type} (body : result A) (handler : exn -> result A)
    : result A :=
  match body with
  | Ok a => Ok a
  | Raise e => handler e
  | Unmodelled => Unmodelled
  end.

(** [load_movie_data()]: the table it returns and what it writes to the page
    (the [st.error] of the handler). *)
Definition load_movie_data (net : Remote) : result (DataFrame * list element) :=
  try_except
    (movies <- try_body net ;; Ok (movies, []))
    (fun e => Ok (fallback, [st_error "Error loading data: " e])).

(** ** Regular expressions: the part of Python's [re] the search box reaches

    [Series.str.contains(pat, case=False, na=False)] leaves [regex] at its
    default [True]: [pat] is compiled with [re.IGNORECASE] and searched in
    every title.  Modelled here: ordinary characters, which stand for
    themselves, among them the closing brace and the closing bracket, and the
    opening brace when no closing brace follows it (it
    then opens no repetition); [.], any character but a newline; a backslash
    before a special character, which makes it ordinary; the two malformed
    patterns "repeat operator at the start" and "backslash at the end".  Any
    other pattern is [Unsupported]: the model says nothing about it. *)
Module Re.

(** The punctuation a backslash makes ordinary. *)
Definition special (c : ascii) : bool :=
  existsb (Ascii.eqb c) (list_ascii_of_string ".^$*+?{}[]\|()").

(** The characters that never stand for themselves. *)
Definition operator (c : ascii) : bool :=
  existsb (Ascii.eqb c) (list_ascii_of_string ".^$*+?[\|()").

Definition repeat_operator (c : ascii) : bool :=
  existsb (Ascii.eqb c) (list_ascii_of_string "*+?").

Definition backslash : ascii := "\"%char.
Definition newline : ascii := "010"%char.
Definition open_brace : ascii := "{"%char.
Definition close_brace : ascii := "}"%char.

Inductive atom : Type :=
| Lit (c : ascii)
| Dot.

Inductive compiled : Type :=
| Pattern (p : list atom)
| Malformed                    (* re.error *)
| Unsupported.

Definition cons_atom (a : atom) (r : compiled) : compiled :=
  match r with
  | Pattern p => Pattern (a :: p)
  | other => other
  end.

Fixpoint parse (s : list ascii) : compiled :=
  match s with
  | [] => Pattern []
  | c :: rest =>
      if Ascii.eqb c backslash then
        match rest with
        | [] => Malformed                        (* bad escape (end of pattern) *)
        | d :: rest' =>
            if special d then cons_atom (Lit d) (parse rest') else Unsupported
        end
      else if Ascii.eqb c "."%char then cons_atom Dot (parse rest)
      else if Ascii.eqb c open_brace then
        if existsb (Ascii.eqb close_brace) rest then Unsupported
        else cons_atom (Lit c) (parse rest)
      else if operator c then Unsupported
      else cons_atom (Lit c) (parse rest)
  end.

(** [re.compile(pat, re.IGNORECASE)] *)
Definition compile (pat : string) : compiled :=
  match list_ascii_of_string pat with
  | c :: rest =>
      if repeat_operator c then Malformed          (* nothing to repeat *)
      else parse (c :: rest)
  | [] => Pattern []
  end.

(** Every character of the term stands for itself. *)
Fixpoint literal (s : list ascii) : bool :=
  match s with
  | [] => true
  | c :: rest =>
      (if Ascii.eqb c open_brace then negb (existsb (Ascii.eqb close_brace) rest)
       else negb (operator c))
      && literal rest
  end.

(** ASCII case folding. *)
Definition lower (c : ascii) : ascii :=
  let n := nat_of_ascii c in
  if (65 <=? n)%nat && (n <=? 90)%nat then ascii_of_nat (n + 32) else c.

Definition match_atom (a : atom) (d : ascii) : bool :=
  match a with
  | Lit c => Ascii.eqb (lower c) (lower d)
  | Dot => negb (Ascii.eqb d newline)
  end.

(** The pattern matches at the start of [s]. *)
Fixpoint match_here (p : list atom) (s : list ascii) : bool :=
  match p, s with
  | [], _ => true
  | a :: p', d :: s' => match_atom a d && match_here p' s'
  | _ :: _, [] => false
  end.

(** [pattern.search(s) is not None]: the pattern matches somewhere in [s]. *)
Fixpoint search (p : list atom) (s : list ascii) : bool :=
  match_here p s ||
  match s with
  | [] => false
  | _ :: s' => search p s'
  end.

End Re.

(** ** Series operations used by the script *)

(** [series.min()], [series.max()] with pandas' default [skipna=True]:
    [None] is the [NaN] pandas returns when no value is present. *)
Definition skipna_fold (pick : Z -> Z -> Z) (col : list (option Z)) : option Z :=
  fold_left
    (fun acc x =>
       match acc, x with
       | Some a, Some v => Some (pick a v)
       | None, Some v => Some v
       | _, None => acc
       end)
    col None.

Definition series_min : list (option Z) -> option Z := skipna_fold Z.min.
Definition series_max : list (option Z) -> option Z := skipna_fold Z.max.

(** [int(x)]: [ValueError] on [NaN]. *)
Definition int (x : option Z) : result Z :=
  match x with
  | Some v => Ok v
  | None => Raise ValueError
  end.

(** [series >= k], [series <= k]: a comparison with [NaN] is false. *)
Definition series_ge (col : list (option Z)) (k : Z) : list bool :=
  map (fun x => match x with Some v => k <=? v | None => false end) col.

Definition series_le (col : list (option Z)) (k : Z) : list bool :=
  map (fun x => match x with Some v => v <=? k | None => false end) col.

(** [mask1 & mask2] *)
Fixpoint mask_and (m1 m2 : list bool) : list bool :=
  match m1, m2 with
  | b1 :: m1', b2 :: m2' => (b1 && b2) :: mask_and m1' m2'
  | _, _ => []
  end.

Fixpoint mask_rows (mask : list bool) (rs : list MovieRecord) : list MovieRecord :=
  match mask, rs with
  | b :: mask', r :: rs' => if b then r :: mask_rows mask' rs' else mask_rows mask' rs'
  | _, _ => []
  end.

(** [df[mask]] for a boolean series [mask] over the rows of [df]. *)
Definition getitem_mask (mask : list bool) (df : DataFrame) : DataFrame :=
  {| columns := columns df; rows := mask_rows mask (rows df) |}.

(** [df[df[name].apply(f)]] for the booleans [mask] that [f] gives on the
    column.  On an empty column [apply] returns an empty series of dtype
    object, which [df[...]] reads as a list of column labels, an empty one:
    the result has no column.  On a column with entries the series is
    boolean and selects rows. *)
Definition getitem_applied (mask : list bool) (df : DataFrame) : DataFrame :=
  match mask with
  | [] => {| columns := []; rows := [] |}
  | _ :: _ => getitem_mask mask df
  end.

(** [series.dropna()] *)
Definition dropna (col : list cell) : list cell :=
  filter (fun x => match x with NaN => false | _ => true end) col.

(** [s.update(l)] on a Python set, kept as a duplicate-free list. *)
Definition set_update (s : list string) (l : list string) : list string :=
  fold_left (fun acc g => ListSet.set_add string_dec g acc) l s.

(** [sorted(s)] *)
Fixpoint insert_sorted (g : string) (l : list string) : list string :=
  match l with
  | [] => [g]
  | h :: t => if String.leb g h then g :: l else h :: insert_sorted g t
  end.

Definition sorted (s : list string) : list string :=
  fold_right insert_sorted [] s.

(** [series.str.contains(pat, case=False, na=False)] *)
Definition str_contains (col : list (option string)) (pat : string)
    : result (list bool) :=
  match Re.compile pat with
  | Re.Pattern p =>
      Ok (map (fun x =>
                 match x with
                 | Some t => Re.search p (list_ascii_of_string t)
                 | None => false                     (* na=False *)
                 end) col)
  | Re.Malformed => Raise re_error
  | Re.Unsupported => Unmodelled
  end.

(** ** Widgets *)

(** What the user has done in the sidebar. *)
Record Widgets : Type := mkWidgets {
  slider_choice : option (Z * Z);      (* [None]: the slider was not moved *)
  multiselect_choice : list string;    (* the genres ticked *)
  text_input_value : option string     (* the search box *)
}.

(** The pair a range slider holds: what the user has set, or the default. *)
Definition slider (lo hi : Z) (default : Z * Z) (choice : option (Z * Z)) : Z * Z :=
  match choice with
  | Some v => v
  | None => default
  end.

(** The integers a widget accepts: those JavaScript holds exactly. *)
Definition js_safe (n : Z) : bool :=
  (- (2 ^ 53 - 1) <=? n) && (n <=? 2 ^ 53 - 1).

(** The bounds a slider accepts: the lower one below the upper one, both
    safe. *)
Definition slider_accepts (bounds : Z * Z) : bool :=
  (fst bounds <? snd bounds) && js_safe (fst bounds) && js_safe (snd bounds).

(** [st.sidebar.slider(label, min_value, max_value, value)]: an exception on
    bounds it does not accept (equal bounds among them), otherwise the pair
    the slider holds. *)
Definition st_slider (min_value max_value : Z) (value : Z * Z)
    (choice : option (Z * Z)) : result (Z * Z) :=
  if slider_accepts (min_value, max_value)
  then Ok (slider min_value max_value value choice)
  else Raise StreamlitAPIException.

(** [st.sidebar.multiselect(label, options, default=[])]: only offered options
    can be ticked. *)
Definition multiselect (options : list string) (choice : list string) : list string :=
  filter (fun g => existsb (String.eqb g) options) choice.

(** Python truthiness of the search term: [None] and the empty string are
    false. *)
Definition truthy (s : option string) : bool :=
  match s with
  | None | Some EmptyString => false
  | Some _ => true
  end.

(** ** Filter pipeline (lines 49-92) *)

(** Lines 50-51: the slider bounds. *)
Definition year_bounds (movies_df : DataFrame) : result (Z * Z) :=
  col <- getitem "year" year movies_df ;;
  year_min <- int (series_min col) ;;
  year_max <- int (series_max col) ;;
  Ok (year_min, year_max).

(** Lines 49-61. *)
Definition year_filter (movies_df : DataFrame) (ui : Widgets) : result DataFrame :=
  if has_column "year" movies_df then
    bounds <- year_bounds movies_df ;;
    year_range <- st_slider (fst bounds) (snd bounds) bounds (slider_choice ui) ;;
    col <- getitem "year" year movies_df ;;
    Ok (getitem_mask
          (mask_and (series_ge col (fst year_range)) (series_le col (snd year_range)))
          movies_df)
  else Ok movies_df.

(** Lines 65-68. *)
Definition all_genres (col : list cell) : list string :=
  fold_left
    (fun acc genres_list =>
       match genres_list with
       | ListOf l => set_update acc l
       | _ => acc
       end)
    (dropna col) [].

(** The lambda of lines 80-81. *)
Definition genre_match (selected_genres : list string) (x : cell) : bool :=
  match x with
  | ListOf l => existsb (fun genre => existsb (String.eqb genre) l) selected_genres
  | _ => false
  end.

(** The value of [selected_genres] (lines 71-75) when the widget is drawn,
    [None] when it is not (no [genres] column, or no genre in the table). *)
Definition selected_genres (movies_df : DataFrame) (ui : Widgets)
    : option (list string) :=
  if has_column "genres" movies_df then
    let all := all_genres (map genres (rows movies_df)) in
    match all with
    | [] => None
    | _ => Some (multiselect (sorted all) (multiselect_choice ui))
    end
  else None.

(** Lines 64-83. *)
Definition genre_filter (movies_df filtered_movies : DataFrame) (ui : Widgets)
    : result DataFrame :=
  match selected_genres movies_df ui with
  | Some (g :: gs) =>
      col <- getitem "genres" genres filtered_movies ;;
      Ok (getitem_applied (map (genre_match (g :: gs)) col) filtered_movies)
  | _ => Ok filtered_movies
  end.

(** Lines 87-92. *)
Definition title_filter (filtered_movies : DataFrame) (ui : Widgets)
    : result DataFrame :=
  match text_input_value ui with
  | Some search_term =>
      if truthy (Some search_term) then
        col <- getitem "title" title filtered_movies ;;
        mask <- str_contains col search_term ;;
        Ok (getitem_mask mask filtered_movies)
      else Ok filtered_movies
  | None => Ok filtered_movies
  end.

(** Lines 49-92: the value of [filtered_movies] at line 95. *)
Definition filtered_movies (movies_df : DataFrame) (ui : Widgets) : result DataFrame :=
  by_year <- year_filter movies_df ui ;;
  by_genre <- genre_filter movies_df by_year ui ;;
  title_filter by_genre ui.

(** Lines 87-92 and 49-92 again, over any implementation [contains] of
    [series.str.contains(pat, case=False, na=False)]: with [str_contains]
    these are [title_filter] and [filtered_movies]. *)
Definition title_filter_with
    (contains : list (option string) -> string -> result (list bool))
    (filtered_movies : DataFrame) (ui : Widgets) : result DataFrame :=
  match text_input_value ui with
  | Some search_term =>
      if truthy (Some search_term) then
        col <- getitem "title" title filtered_movies ;;
        mask <- contains col search_term ;;
        Ok (getitem_mask mask filtered_movies)
      else Ok filtered_movies
  | None => Ok filtered_movies
  end.

Definition filtered_movies_with
    (contains : list (option string) -> string -> result (list bool))
    (movies_df : DataFrame) (ui : Widgets) : result DataFrame :=
  by_year <- year_filter movies_df ui ;;
  by_genre <- genre_filter movies_df by_year ui ;;
  title_filter_with contains by_genre ui.

(** ** Selector (lines 132-136, 145-146) *)

(** [df.sample(1)]: one row, at the position the generator draws; [draw] is
    the generator's raw output.  pandas raises [ValueError] on an empty
    frame. *)
Definition sample_one (df : DataFrame) (draw : nat) : result DataFrame :=
  match nth_error (rows df) (draw mod len df) with
  | Some r => Ok {| columns := columns df; rows := [r] |}
  | None => Raise ValueError
  end.

(** [df.iloc[0]] *)
Definition iloc0 (df : DataFrame) : result MovieRecord :=
  match rows df with
  | r :: _ => Ok r
  | [] => Raise IndexError
  end.

(** The body of the "Pick Random Movie" button: the record bound to
    [random_movie], if any, and the banner shown.  Lines 137-144, which print
    the picked record, are presentation and are left out. *)
Definition random_movie (filtered : DataFrame) (draw : nat)
    : result (option MovieRecord * element) :=
  if (0 <? len filtered)%nat then
    one <- sample_one filtered draw ;;
    picked <- iloc0 one ;;
    Ok (Some picked, st_success "Here's your recommendation!")
  else
    Ok (None, st_warning "No movies found with current filters!").

(** ** Statistics (lines 164-170) *)

(** A Python [dict] from genre to count, in insertion order. *)
Definition dict : Type := list (string * nat).

(** [d.get(k, default)] *)
Fixpoint dict_get (d : dict) (k : string) (default : nat) : nat :=
  match d with
  | [] => default
  | (k', v) :: d' => if String.eqb k k' then v else dict_get d' k default
  end.

(** [d[k] = v] *)
Fixpoint dict_set (d : dict) (k : string) (v : nat) : dict :=
  match d with
  | [] => [(k, v)]
  | (k', v') :: d' =>
      if String.eqb k k' then (k', v) :: d' else (k', v') :: dict_set d' k v
  end.

(** Line 170. *)
Definition count_genre (counts : dict) (genre : string) : dict :=
  dict_set counts genre (dict_get counts genre 0 + 1)%nat.

(** Lines 164-170: [None] when the table has no [genres] column and the block
    is skipped. *)
Definition genre_counts (movies_df : DataFrame) : option dict :=
  if has_column "genres" movies_df then
    Some (fold_left
            (fun counts genres_list =>
               match genres_list with
               | ListOf l => fold_left count_genre l counts
               | _ => counts
               end)
            (dropna (map genres (rows movies_df))) [])
  else None.

(** The sum of the counts over all labels. *)
Definition total (counts : dict) : nat :=
  fold_right (fun kv acc => (snd kv + acc)%nat) 0%nat counts.

(** ** One run of the script *)

(** [@st.cache_data]: the first call runs the function and stores what it
    returned; later calls replay the stored value. *)
Definition Cache : Type := option (DataFrame * list element).

Definition cached_load (cache : Cache) (net : Remote)
    : result (DataFrame * list element) * Cache :=
  match cache with
  | Some hit => (Ok hit, cache)
  | None =>
      match load_movie_data net with
      | Ok loaded => (Ok loaded, Some loaded)
      | failed => (failed, None)
      end
  end.

(** Everything a rerun reads from outside the script. *)
Record Input : Type := mkInput {
  net : Remote;                 (* what the network would answer *)
  ui : Widgets;                 (* the sidebar *)
  pick_clicked : bool;          (* the "Pick Random Movie" button *)
  draw : nat                    (* the random generator's next output *)
}.

Record Page : Type := mkPage {
  page_movies : DataFrame;
  page_filtered : DataFrame;
  page_pick : option (option MovieRecord * element);
  page_counts : option dict
}.

Definition script (cache : Cache) (inp : Input) : Cache * result Page :=
  let (loaded, cache') := cached_load cache (net inp) in
  (cache',
   ld <- loaded ;;
   let movies_df := fst ld in
   filtered <- filtered_movies movies_df (ui inp) ;;
   pick <- (if pick_clicked inp
            then p <- random_movie filtered (draw inp) ;; Ok (Some p)
            else Ok None) ;;
   Ok {| page_movies := movies_df;
         page_filtered := filtered;
         page_pick := pick;
         page_counts := genre_counts movies_df |}).

(** ** Browse tab (lines 104-118) and the card of a picked movie (137-144) *)

(** [', '.join(l)] *)
Definition join (l : list string) : string := String.concat ", " l.

(** What is printed for one row: the heading, and the lines that are there. *)
Record Card : Type := mkCard {
  card_heading : option string;        (* the [title] cell *)
  card_year : option (option Z);       (* the [year] cell, if the row has one *)
  card_genres : option string;
  card_cast : option string
}.

(** [', '.join(row[name][:limit])] under the guard
    [name in row and isinstance(row[name], list)]. *)
Definition joined_line (df : DataFrame) (name : string) (x : cell)
    (limit : option nat) : option string :=
  if has_column name df then
    match x with
    | ListOf l =>
        Some (join (match limit with Some n => firstn n l | None => l end))
    | _ => None
    end
  else None.

(** Lines 112-118 with [cast_limit = 3], lines 137-144 with [cast_limit = 5]:
    [row['title']] is read without a guard. *)
Definition render (df : DataFrame) (cast_limit : nat) (row : MovieRecord)
    : result Card :=
  heading <- (if has_column "title" df then Ok (title row)
              else Raise (KeyError "title")) ;;
  Ok {| card_heading := heading;
        card_year := if has_column "year" df then Some (year row) else None;
        card_genres := joined_line df "genres" (genres row) None;
        card_cast := joined_line df "cast" (cast row) (Some cast_limit) |}.

(** [df.head(n)] *)
Definition head (n : nat) (df : DataFrame) : DataFrame :=
  {| columns := columns df; rows := firstn n (rows df) |}.

(** A [for] loop that collects what its body returns and stops at the first
    exception. *)
Fixpoint for_each {A B : Type} (body : A -> result B) (l : list A)
    : result (list B) :=
  match l with
  | [] => Ok []
  | x :: l' =>
      y <- body x ;;
      ys <- for_each body l' ;;
      Ok (y :: ys)
  end.

(** Lines 107-118: the cards of the movie list. *)
Definition browse (filtered : DataFrame) (num_display : nat) : result (list Card) :=
  for_each (render filtered 3) (rows (head num_display filtered)).

(** Lines 133-146: the banner, and the card of the picked movie. *)
Definition pick_tab (filtered : DataFrame) (draw : nat)
    : result (element * option Card) :=
  p <- random_movie filtered draw ;;
  match fst p with
  | Some picked =>
      card <- render filtered 5 picked ;;
      Ok (snd p, Some card)
  | None => Ok (snd p, None)
  end.

(** ** The three metrics (lines 153-161) *)



(** ** Reruns *)

(** The cache after the script has run once for each input, in order. *)
Definition rerun_all (cache : Cache) (inputs : list Input) : Cache :=
  fold_left (fun c inp => fst (script c inp)) inputs cache.

(** * Vocabulary of the properties *)

(** [l1] is [l2] with some elements left out, the others in their order. *)
Inductive subseq {A : Type} : list A -> list A -> Prop :=
| subseq_nil : subseq [] []
| subseq_skip (x : A) (l1 l2 : list A) : subseq l1 l2 -> subseq l1 (x :: l2)
| subseq_keep (x : A) (l1 l2 : list A) : subseq l1 l2 -> subseq (x :: l1) (x :: l2).

#[local] Hint Constructors subseq : core.

(** A year cell lies in the closed range; [NaN] lies in no range. *)
Definition in_range (lo hi : Z) (y : option Z) : bool :=
  match y with
  | Some v => (lo <=? v) && (v <=? hi)
  | None => false
  end.

(** The table [pd.DataFrame([])]: no column, no row. *)
Definition empty_table : DataFrame := {| columns := []; rows := [] |}.

(** A sidebar in which only the search box is filled. *)
Definition searching (term : string) : Widgets :=
  {| slider_choice := None; multiselect_choice := []; text_input_value := Some term |}.

(** Title, year and genres are populated, there is no cast. *)
Definition populated (r : MovieRecord) : Prop :=
  (exists t, title r = Some t /\ t <> "") /\
  (exists y, year r = Some y) /\
  (exists l, genres r = ListOf l /\ l <> []) /\
  cast r = NaN.

(** The slider set to (1990, 1999), nothing else touched. *)
Definition nineties : Widgets :=
  {| slider_choice := Some (1990, 1999);
     multiselect_choice := [];
     text_input_value := Some "" |}.

(** [pd.DataFrame([{"title": "A", "year": None}])] *)
Definition no_years : DataFrame :=
  {| columns := ["title"; "year"];
     rows := [ {| title := Some "A"; year := None; genres := NaN; cast := NaN |} ] |}.

(** The record has a list of genres and one of them is selected. *)
Definition shares_genre (selected : list string) (r : MovieRecord) : Prop :=
  exists l g, genres r = ListOf l /\ In g l /\ In g selected.

(** A sidebar in which only genres are ticked. *)
Definition ticking (picked : list string) : Widgets :=
  {| slider_choice := None; multiselect_choice := picked; text_input_value := Some "" |}.

Definition chars (s : string) : list ascii := list_ascii_of_string s.


(** Every character of the term stands for itself in a pattern: none of
    [. ^ $ * + ? \ | ( )] nor an opening bracket, and no [{] with a [}]
    after it. *)
Definition plain (term : string) : Prop := Re.literal (chars term) = true.




(** The search term when the title stage is active. *)
Definition active_search (ui : Widgets) : option string :=
  match text_input_value ui with
  | Some term => if truthy (Some term) then Some term else None
  | None => None
  end.


(** The sidebar holds the collection's own range [(lo, hi)], set by hand or
    left at the slider's default, and nothing else. *)
Definition own_range (lo hi : Z) (ui : Widgets) : Prop :=
  (slider_choice ui = None \/ slider_choice ui = Some (lo, hi)) /\
  multiselect_choice ui = [] /\
  truthy (text_input_value ui) = false.

(** Identity at the extremes as the specification words it, at one
    collection with a [year] column. *)
Definition own_range_claim (movies_df : DataFrame) : Prop :=
  has_column "year" movies_df = true ->
  exists lo hi,
    year_bounds movies_df = Ok (lo, hi) /\
    forall ui, own_range lo hi ui -> filtered_movies movies_df ui = Ok movies_df.

(** Three records, the second without a year. *)
Definition one_year_missing : DataFrame :=
  {| columns := ["title"; "year"];
     rows := [ {| title := Some "A"; year := Some 1990; genres := NaN; cast := NaN |};
               {| title := Some "B"; year := None; genres := NaN; cast := NaN |};
               {| title := Some "C"; year := Some 2000; genres := NaN; cast := NaN |} ] |}.

(** The banner of line 146. *)
Definition no_movies : element := st_warning "No movies found with current filters!".

(** The number of (record, genre) pairs of the collection. *)
Definition pairs (movies_df : DataFrame) : nat :=
  list_sum
    (map (fun r => match genres r with
                   | ListOf l => List.length l
                   | _ => 0%nat
                   end) (rows movies_df)).

(** The collection a run works on. *)
Definition loaded (cache : Cache) (inp : Input) : result DataFrame :=
  ld <- fst (cached_load cache (net inp)) ;; Ok (fst ld).

(** The value of [year_range] (lines 52-55) when the slider is drawn. *)
Definition year_range (movies_df : DataFrame) (ui : Widgets) : option (Z * Z) :=
  if has_column "year" movies_df then
    match year_bounds movies_df with
    | Ok b => Some (slider (fst b) (snd b) b (slider_choice ui))
    | _ => None
    end
  else None.

(** The three conditions a record meets to stay in the view. *)
Definition year_pass (movies_df : DataFrame) (ui : Widgets) (r : MovieRecord) : bool :=
  match year_range movies_df ui with
  | Some (lo, hi) => in_range lo hi (year r)
  | None => true
  end.

Definition genre_pass (movies_df : DataFrame) (ui : Widgets) (r : MovieRecord) : bool :=
  match selected_genres movies_df ui with
  | Some (g :: gs) => genre_match (g :: gs) (genres r)
  | _ => true
  end.

Definition title_pass (ui : Widgets) (r : MovieRecord) : bool :=
  match active_search ui with
  | Some term =>
      match Re.compile term, title r with
      | Re.Pattern p, Some t => Re.search p (chars t)
      | _, _ => false
      end
  | None => true
  end.

Definition passes (movies_df : DataFrame) (ui : Widgets) (r : MovieRecord) : bool :=
  year_pass movies_df ui r && genre_pass movies_df ui r && title_pass ui r.

(** How often the label occurs in the lists of the [genres] column. *)
Definition occurrences (g : string) (movies_df : DataFrame) : nat :=
  list_sum
    (map (fun r => match genres r with
                   | ListOf l => count_occ string_dec l g
                   | _ => 0%nat
                   end) (rows movies_df)).

(** The options handed to the multiselect (line 73). *)
Definition options (movies_df : DataFrame) : list string :=
  sorted (all_genres (map genres (rows movies_df))).




(** The record has a year. *)
Definition dated (r : MovieRecord) : bool :=
  match year r with
  | Some _ => true
  | None => false
  end.

(** What the genre stage hands on (lines 77-83). *)
Definition by_genre (movies_df fm : DataFrame) (ui : Widgets) : DataFrame :=
  match selected_genres movies_df ui with
  | Some (g :: gs) =>
      getitem_applied (map (fun r => genre_match (g :: gs) (genres r)) (rows fm)) fm
  | _ => fm
  end.


(** The records that pass the year condition and the genre condition. *)
Definition year_and_genre (movies_df : DataFrame) (ui : Widgets) (r : MovieRecord)
    : bool :=
  year_pass movies_df ui r && genre_pass movies_df ui r.

(** A table with one record. *)
Definition one_movie : DataFrame :=
  {| columns := ["title"; "year"];
     rows := [ {| title := Some "A"; year := Some 2000; genres := NaN; cast := NaN |} ] |}.

(** The slider on years without a movie, a genre ticked, a term typed. *)
Definition nothing_left : Widgets :=
  {| slider_choice := Some (2000, 2005);
     multiselect_choice := ["Drama"];
     text_input_value := Some "the" |}.

(** * Properties *)

(** ** Order-preserving subsequences and masks *)

Lemma subseq_refl {A : Type} (l : list A) : subseq l l.
Proof. induction l; auto. Qed.

Lemma subseq_trans {A : Type} (l1 l2 l3 : list A) :
  subseq l1 l2 -> subseq l2 l3 -> subseq l1 l3.
Proof.
  intros H12 H23. revert l1 H12.
  induction H23; intros k Hk; auto.
  inversion Hk; subst; auto.
Qed.

Lemma subseq_In {A : Type} (l1 l2 : list A) (x : A) :
  subseq l1 l2 -> In x l1 -> In x l2.
Proof.
  induction 1; simpl; intuition.
Qed.


Lemma subseq_filter {A : Type} (f : A -> bool) (l : list A) : subseq (filter f l) l.
Proof.
  induction l as [|x l IH]; simpl; auto.
  destruct (f x); auto.
Qed.



Lemma mask_rows_subseq (mask : list bool) (rs : list MovieRecord) :
  subseq (mask_rows mask rs) rs.
Proof.
  revert mask. induction rs as [|r rs IH]; intros [|b mask]; simpl; auto.
  - constructor. apply (IH []).
  - destruct b; auto.
Qed.

Lemma mask_rows_map (f : MovieRecord -> bool) (rs : list MovieRecord) :
  mask_rows (map f rs) rs = filter f rs.
Proof.
  induction rs as [|r rs IH]; simpl; auto.
  rewrite IH. reflexivity.
Qed.

Lemma mask_and_map {A : Type} (f g : A -> bool) (l : list A) :
  mask_and (map f l) (map g l) = map (fun x => f x && g x) l.
Proof.
  induction l as [|x l IH]; simpl; auto.
  rewrite IH. reflexivity.
Qed.

Lemma year_mask lo hi (rs : list MovieRecord) :
  mask_rows (mask_and (series_ge (map year rs) lo) (series_le (map year rs) hi)) rs
  = filter (fun r => in_range lo hi (year r)) rs.
Proof.
  unfold series_ge, series_le. rewrite !map_map, mask_and_map.
  rewrite (mask_rows_map (fun r => _ && _)).
  apply filter_ext. intros r. unfold in_range. destruct (year r); reflexivity.
Qed.

Lemma filter_filter {A : Type} (f g : A -> bool) (l : list A) :
  filter f (filter g l) = filter (fun x => g x && f x) l.
Proof.
  induction l as [|x l IH]; simpl; auto.
  destruct (g x); simpl; [destruct (f x)|]; rewrite IH; reflexivity.
Qed.

Lemma filter_true {A : Type} (l : list A) : filter (fun _ => true) l = l.
Proof.
  induction l as [|x l IH]; simpl; congruence.
Qed.

Lemma filter_all_true {A : Type} (f : A -> bool) (l : list A) :
  Forall (fun x => f x = true) l -> filter f l = l.
Proof.
  induction 1 as [|x l Hx _ IH]; simpl; auto.
  rewrite Hx, IH. reflexivity.
Qed.

(** ** min and max of a column *)

Lemma skipna_fold_none pick (col : list (option Z)) (acc : option Z) :
  fold_left
    (fun acc x =>
       match acc, x with
       | Some a, Some v => Some (pick a v)
       | None, Some v => Some v
       | _, None => acc
       end) col acc = None ->
  acc = None /\ Forall (fun x => x = None) col.
Proof.
  revert acc. induction col as [|x col IH]; simpl; intros acc H; auto.
  apply IH in H. destruct H as [Hacc Hall].
  destruct acc, x; try discriminate; auto.
Qed.

Lemma series_min_present (col : list (option Z)) (v : Z) :
  In (Some v) col -> exists m, series_min col = Some m.
Proof.
  intros Hin. destruct (series_min col) as [m|] eqn:E; eauto.
  apply skipna_fold_none in E. destruct E as [_ Hall].
  rewrite Forall_forall in Hall. apply Hall in Hin. discriminate.
Qed.

Lemma series_max_present (col : list (option Z)) (v : Z) :
  In (Some v) col -> exists m, series_max col = Some m.
Proof.
  intros Hin. destruct (series_max col) as [m|] eqn:E; eauto.
  apply skipna_fold_none in E. destruct E as [_ Hall].
  rewrite Forall_forall in Hall. apply Hall in Hin. discriminate.
Qed.

Lemma series_min_le (col : list (option Z)) (m : Z) :
  series_min col = Some m -> forall v, In (Some v) col -> m <= v.
Proof.
  unfold series_min, skipna_fold.
  assert (G : forall acc,
    fold_left
      (fun acc x =>
         match acc, x with
         | Some a, Some v => Some (Z.min a v)
         | None, Some v => Some v
         | _, None => acc
         end) col acc = Some m ->
    (forall a, acc = Some a -> m <= a) /\ forall v, In (Some v) col -> m <= v).
  { induction col as [|x col IH]; simpl; intros acc H.
    - split; [intros a Ha; assert (a = m) by congruence; lia | tauto].
    - apply IH in H. destruct H as [Hacc Hcol]. split.
      + intros a Ha. subst acc. destruct x as [v|].
        * specialize (Hacc _ eq_refl). lia.
        * auto.
      + intros v [Hv | Hv]; auto. subst x.
        destruct acc as [a|]; specialize (Hacc _ eq_refl); lia. }
  intros H. apply (G None H).
Qed.

Lemma series_max_ge (col : list (option Z)) (m : Z) :
  series_max col = Some m -> forall v, In (Some v) col -> v <= m.
Proof.
  unfold series_max, skipna_fold.
  assert (G : forall acc,
    fold_left
      (fun acc x =>
         match acc, x with
         | Some a, Some v => Some (Z.max a v)
         | None, Some v => Some v
         | _, None => acc
         end) col acc = Some m ->
    (forall a, acc = Some a -> a <= m) /\ forall v, In (Some v) col -> v <= m).
  { induction col as [|x col IH]; simpl; intros acc H.
    - split; [intros a Ha; assert (a = m) by congruence; lia | tauto].
    - apply IH in H. destruct H as [Hacc Hcol]. split.
      + intros a Ha. subst acc. destruct x as [v|].
        * specialize (Hacc _ eq_refl). lia.
        * auto.
      + intros v [Hv | Hv]; auto. subst x.
        destruct acc as [a|]; specialize (Hacc _ eq_refl); lia. }
  intros H. apply (G None H).
Qed.

Lemma skipna_fold_attained (pick : Z -> Z -> Z) (col : list (option Z))
    (acc : option Z) (m : Z) :
  (forall a v, pick a v = a \/ pick a v = v) ->
  fold_left
    (fun acc x =>
       match acc, x with
       | Some a, Some v => Some (pick a v)
       | None, Some v => Some v
       | _, None => acc
       end) col acc = Some m ->
  acc = Some m \/ In (Some m) col.
Proof.
  intros Hpick. revert acc. induction col as [|x col IH]; simpl; intros acc H; auto.
  apply IH in H. destruct H as [H | H]; auto.
  destruct acc as [a|], x as [v|]; auto; try discriminate.
  injection H as H. destruct (Hpick a v) as [E | E]; rewrite E in H; subst; auto.
Qed.

Lemma series_min_attained (col : list (option Z)) (m : Z) :
  series_min col = Some m -> In (Some m) col.
Proof.
  intros H. apply skipna_fold_attained in H.
  - destruct H as [H | H]; [discriminate | exact H].
  - intros a v. destruct (Z.min_dec a v); auto.
Qed.

Lemma series_max_attained (col : list (option Z)) (m : Z) :
  series_max col = Some m -> In (Some m) col.
Proof.
  intros H. apply skipna_fold_attained in H.
  - destruct H as [H | H]; [discriminate | exact H].
  - intros a v. destruct (Z.max_dec a v); auto.
Qed.

(** ** The year stage *)

Lemma truthy_spec (term : string) : truthy (Some term) = true <-> term <> "".
Proof.
  destruct term; simpl; split; intros H.
  - discriminate H.
  - exfalso. apply H. reflexivity.
  - intros E. discriminate E.
  - reflexivity.
Qed.

Lemma has_column_columns (name : string) (df1 df2 : DataFrame) :
  columns df1 = columns df2 -> has_column name df1 = has_column name df2.
Proof. unfold has_column. intros ->. reflexivity. Qed.

Lemma year_bounds_ready (movies_df : DataFrame) :
  has_column "year" movies_df = true ->
  (exists r v, In r (rows movies_df) /\ year r = Some v) ->
  exists lo hi,
    year_bounds movies_df = Ok (lo, hi) /\
    series_min (map year (rows movies_df)) = Some lo /\
    series_max (map year (rows movies_df)) = Some hi.
Proof.
  intros Hcol (r & v & Hin & Hy).
  assert (Hv : In (Some v) (map year (rows movies_df))).
  { rewrite <- Hy. apply in_map, Hin. }
  destruct (series_min_present _ _ Hv) as [lo Hlo].
  destruct (series_max_present _ _ Hv) as [hi Hhi].
  exists lo, hi. unfold year_bounds, getitem. rewrite Hcol. simpl.
  rewrite Hlo, Hhi. simpl. auto.
Qed.

Lemma year_bounds_inv (movies_df : DataFrame) (lo hi : Z) :
  year_bounds movies_df = Ok (lo, hi) ->
  has_column "year" movies_df = true /\
  series_min (map year (rows movies_df)) = Some lo /\
  series_max (map year (rows movies_df)) = Some hi.
Proof.
  unfold year_bounds, getitem.
  destruct (has_column "year" movies_df); [|discriminate]. unfold bind at 1.
  destruct (series_min (map year (rows movies_df))) as [m|]; [|discriminate].
  unfold int at 1, bind at 1.
  destruct (series_max (map year (rows movies_df))) as [M|]; [|discriminate].
  unfold int, bind. intros H. injection H as -> ->. auto.
Qed.

Lemma in_year_column (movies_df : DataFrame) (v : Z) :
  In (Some v) (map year (rows movies_df)) ->
  exists r, In r (rows movies_df) /\ year r = Some v.
Proof.
  intros H. apply in_map_iff in H. destruct H as (r & Hy & Hr). eauto.
Qed.

Lemma year_column_without_years (movies_df : DataFrame) (ui : Widgets) :
  has_column "year" movies_df = true ->
  Forall (fun r => year r = None) (rows movies_df) ->
  year_bounds movies_df = Raise ValueError /\
  filtered_movies movies_df ui = Raise ValueError.
Proof.
  intros Hcol Hall.
  assert (Hmin : series_min (map year (rows movies_df)) = None).
  { unfold series_min, skipna_fold.
    induction Hall as [|r rs Hr _ IH]; simpl; auto. rewrite Hr. exact IH. }
  assert (Hb : year_bounds movies_df = Raise ValueError).
  { unfold year_bounds, getitem. rewrite Hcol. simpl. rewrite Hmin. reflexivity. }
  split; auto.
  unfold filtered_movies, year_filter. rewrite Hcol, Hb. reflexivity.
Qed.

Lemma year_range_some (movies_df : DataFrame) (ui : Widgets) (bounds : Z * Z) :
  has_column "year" movies_df = true ->
  year_bounds movies_df = Ok bounds ->
  year_range movies_df ui
  = Some (slider (fst bounds) (snd bounds) bounds (slider_choice ui)).
Proof.
  intros Hcol Hb. unfold year_range. rewrite Hcol, Hb. reflexivity.
Qed.

Lemma st_slider_cases (bounds value : Z * Z) (choice : option (Z * Z)) :
  (slider_accepts bounds = false /\
   st_slider (fst bounds) (snd bounds) value choice = Raise StreamlitAPIException) \/
  (slider_accepts bounds = true /\
   st_slider (fst bounds) (snd bounds) value choice
   = Ok (slider (fst bounds) (snd bounds) value choice)).
Proof.
  unfold st_slider. destruct bounds as [lo hi]. simpl fst. simpl snd.
  destruct (slider_accepts (lo, hi)); auto.
Qed.

(** The year stage ends in one of four ways. *)
Lemma year_filter_outcome (movies_df : DataFrame) (ui : Widgets) :
  (has_column "year" movies_df = false /\ year_filter movies_df ui = Ok movies_df) \/
  (has_column "year" movies_df = true /\
   Forall (fun r => year r = None) (rows movies_df) /\
   year_filter movies_df ui = Raise ValueError) \/
  (has_column "year" movies_df = true /\
   exists bounds,
     year_bounds movies_df = Ok bounds /\
     ((slider_accepts bounds = false /\
       year_filter movies_df ui = Raise StreamlitAPIException) \/
      (slider_accepts bounds = true /\
       year_filter movies_df ui = Ok (select (year_pass movies_df ui) movies_df)))).
Proof.
  destruct (has_column "year" movies_df) eqn:Hcol.
  - right.
    destruct (series_min (map year (rows movies_df))) as [lo|] eqn:Hlo.
    + right. split; auto.
      pose proof (@in_year_column movies_df lo (series_min_attained _ Hlo)) as (r & Hr & Hy).
      assert (Hsome : exists r v, In r (rows movies_df) /\ year r = Some v) by eauto.
      destruct (year_bounds_ready movies_df Hcol Hsome) as (l & h & Hb & _ & _).
      exists (l, h). split; auto.
      destruct (st_slider_cases (l, h) (l, h) (slider_choice ui)) as [[Hno Hs] | [Hyes Hs]].
      * left. split; auto.
        unfold year_filter. rewrite Hcol, Hb. cbv beta iota delta [bind].
        rewrite Hs. reflexivity.
      * right. split; auto.
        unfold year_filter. rewrite Hcol, Hb. cbv beta iota delta [bind].
        rewrite Hs. unfold getitem. rewrite Hcol.
        unfold getitem_mask, select. rewrite year_mask. do 2 f_equal.
        apply filter_ext. intros x. unfold year_pass.
        rewrite (@year_range_some movies_df ui (l, h) Hcol Hb).
        destruct (slider (fst (l, h)) (snd (l, h)) (l, h) (slider_choice ui)).
        reflexivity.
    + left. split; auto.
      apply skipna_fold_none in Hlo. destruct Hlo as [_ Hall].
      assert (Hnone : Forall (fun r => year r = None) (rows movies_df)).
      { rewrite Forall_forall in *. intros r Hr. apply Hall, in_map, Hr. }
      split; auto.
      unfold year_filter. rewrite Hcol.
      destruct (year_column_without_years movies_df ui Hcol Hnone) as [Hb _].
      rewrite Hb. reflexivity.
  - left. split; auto. unfold year_filter. rewrite Hcol. reflexivity.
Qed.

Lemma select_select (f g : MovieRecord -> bool) (df : DataFrame) :
  select f (select g df) = select (fun r => g r && f r) df.
Proof.
  unfold select. simpl. rewrite filter_filter. reflexivity.
Qed.

Lemma select_all (f : MovieRecord -> bool) (df : DataFrame) :
  (forall r, f r = true) -> select f df = df.
Proof.
  intros H. unfold select. rewrite (filter_ext f (fun _ => true) H), filter_true.
  destruct df; reflexivity.
Qed.

Lemma select_ext (f g : MovieRecord -> bool) (df : DataFrame) :
  (forall r, f r = g r) -> select f df = select g df.
Proof.
  intros H. unfold select. rewrite (filter_ext f g H). reflexivity.
Qed.

Lemma year_filter_keeps (movies_df view : DataFrame) (ui : Widgets) :
  year_filter movies_df ui = Ok view ->
  view = select (year_pass movies_df ui) movies_df.
Proof.
  intros Hrun.
  destruct (year_filter_outcome movies_df ui)
    as [[Hcol H] | [(Hcol & _ & H) | (Hcol & b & Hb & [[_ H] | [_ H]])]];
    rewrite H in Hrun; try discriminate; injection Hrun as <-; auto.
  symmetry. apply select_all. intros r.
  unfold year_pass, year_range. rewrite Hcol. reflexivity.
Qed.



(** ** The genre stage *)

Lemma selected_needs_column (movies_df : DataFrame) (ui : Widgets) (sel : list string) :
  selected_genres movies_df ui = Some sel -> has_column "genres" movies_df = true.
Proof.
  unfold selected_genres. destruct (has_column "genres" movies_df); congruence.
Qed.

Lemma existsb_eqb_In (g : string) (l : list string) :
  existsb (String.eqb g) l = true <-> In g l.
Proof.
  rewrite existsb_exists. split.
  - intros (x & Hx & Heq). apply String.eqb_eq in Heq. subst. exact Hx.
  - intros H. exists g. split; auto. apply String.eqb_refl.
Qed.

Lemma genre_match_spec (selected : list string) (r : MovieRecord) :
  genre_match selected (genres r) = true <-> shares_genre selected r.
Proof.
  unfold shares_genre, genre_match. destruct (genres r) as [|l|s].
  - split; [discriminate | intros (l & g & H & _); discriminate].
  - rewrite existsb_exists. split.
    + intros (g & Hsel & Hin). apply existsb_eqb_In in Hin. eauto.
    + intros (l' & g & Heq & Hin & Hsel). injection Heq as <-.
      exists g. split; auto. apply existsb_eqb_In, Hin.
  - split; [discriminate | intros (l & g & H & _); discriminate].
Qed.

Lemma set_update_In (g : string) (l s : list string) :
  In g (set_update s l) <-> In g s \/ In g l.
Proof.
  unfold set_update. revert s. induction l as [|x l IH]; intros s; simpl.
  - tauto.
  - rewrite IH, ListSet.set_add_iff. intuition.
Qed.

Lemma all_genres_In (g : string) (col : list cell) :
  In g (all_genres col) <-> exists l, In (ListOf l) col /\ In g l.
Proof.
  unfold all_genres.
  assert (G : forall acc,
    In g (fold_left
            (fun acc genres_list =>
               match genres_list with
               | ListOf l => set_update acc l
               | _ => acc
               end) (dropna col) acc)
    <-> In g acc \/ exists l, In (ListOf l) col /\ In g l).
  { induction col as [|x col IH]; intros acc; simpl.
    - split; [auto | intros [H | (l & [] & _)]; exact H].
    - destruct x as [|l|s]; simpl; rewrite IH; try rewrite set_update_In.
      + split; [intros [H | (l & H1 & H2)]; eauto | ].
        intros [H | (l & [H1 | H1] & H2)]; eauto; discriminate.
      + split.
        * intros [[H | H] | (l' & H1 & H2)]; eauto.
        * intros [H | (l' & [H1 | H1] & H2)]; eauto.
          injection H1 as ->. auto.
      + split; [intros [H | (l & H1 & H2)]; eauto | ].
        intros [H | (l & [H1 | H1] & H2)]; eauto; discriminate. }
  rewrite G. simpl. tauto.
Qed.

Lemma insert_sorted_In (g x : string) (l : list string) :
  In g (insert_sorted x l) <-> g = x \/ In g l.
Proof.
  induction l as [|h t IH]; simpl.
  - intuition.
  - destruct (String.leb x h); simpl; [|rewrite IH]; intuition.
Qed.

Lemma sorted_In (g : string) (s : list string) : In g (sorted s) <-> In g s.
Proof.
  induction s as [|x s IH]; simpl; [tauto|].
  rewrite insert_sorted_In, IH. intuition.
Qed.


Lemma genre_filter_nothing_ticked (movies_df fm : DataFrame) (ui : Widgets) :
  multiselect_choice ui = [] -> genre_filter movies_df fm ui = Ok fm.
Proof.
  intros Hnone. unfold genre_filter, selected_genres. rewrite Hnone.
  destruct (has_column "genres" movies_df); auto.
  destruct (all_genres (map genres (rows movies_df))); reflexivity.
Qed.

(** The genre stage never raises. *)
Lemma genre_filter_eq (movies_df fm : DataFrame) (ui : Widgets) :
  columns fm = columns movies_df ->
  genre_filter movies_df fm ui = Ok (by_genre movies_df fm ui).
Proof.
  intros Hcols. unfold genre_filter, by_genre.
  destruct (selected_genres movies_df ui) as [[|g gs]|] eqn:Hsel; auto.
  unfold getitem.
  rewrite (has_column_columns "genres" fm movies_df Hcols).
  rewrite (selected_needs_column _ _ Hsel). unfold bind.
  rewrite map_map. reflexivity.
Qed.

Lemma by_genre_rows (movies_df fm : DataFrame) (ui : Widgets) :
  rows (by_genre movies_df fm ui) = filter (genre_pass movies_df ui) (rows fm).
Proof.
  unfold by_genre, genre_pass.
  destruct (selected_genres movies_df ui) as [[|g gs]|];
    try (rewrite filter_true; reflexivity).
  unfold getitem_applied.
  destruct (rows fm) as [|r rs] eqn:Hrows; [reflexivity|].
  cbn [map]. cbv beta iota. unfold getitem_mask. cbn [rows]. rewrite Hrows.
  exact (mask_rows_map (fun r0 => genre_match (g :: gs) (genres r0)) (r :: rs)).
Qed.


(** ** The title stage *)

Lemma title_filter_inactive (fm : DataFrame) (ui : Widgets) :
  active_search ui = None -> title_filter fm ui = Ok fm.
Proof.
  unfold active_search, title_filter.
  destruct (text_input_value ui) as [term|]; auto.
  destruct (truthy (Some term)); [discriminate | reflexivity].
Qed.




Lemma title_filter_with_rows
    (contains : list (option string) -> string -> result (list bool))
    (fm view : DataFrame) (ui : Widgets) :
  title_filter_with contains fm ui = Ok view ->
  subseq (rows view) (rows fm) /\ (active_search ui = None -> view = fm).
Proof.
  unfold title_filter_with, active_search.
  destruct (text_input_value ui) as [term|].
  - destruct (truthy (Some term)).
    + unfold getitem. destruct (has_column "title" fm); [|discriminate].
      unfold bind at 1.
      destruct (contains (map title (rows fm)) term) as [mask| |]; try discriminate.
      unfold bind. intros H. injection H as <-. split.
      * apply mask_rows_subseq.
      * discriminate.
    + intros H. injection H as <-. auto using subseq_refl.
  - intros H. injection H as <-. auto using subseq_refl.
Qed.


(** ** The pipeline, stage after stage *)

Lemma filtered_movies_with_str_contains (movies_df : DataFrame) (ui : Widgets) :
  filtered_movies_with str_contains movies_df ui = filtered_movies movies_df ui.
Proof. reflexivity. Qed.

(** What the year and genre stages hand to the title stage. *)
Lemma by_genre_of_year (movies_df : DataFrame) (ui : Widgets) :
  rows (by_genre movies_df (select (year_pass movies_df ui) movies_df) ui)
  = filter (year_and_genre movies_df ui) (rows movies_df).
Proof.
  rewrite by_genre_rows. simpl. rewrite filter_filter. reflexivity.
Qed.

Lemma filtered_movies_with_steps
    (contains : list (option string) -> string -> result (list bool))
    (movies_df : DataFrame) (ui : Widgets) :
  (exists e, year_filter movies_df ui = Raise e /\
             filtered_movies_with contains movies_df ui = Raise e) \/
  (returns (year_filter movies_df ui) /\
   filtered_movies_with contains movies_df ui
   = title_filter_with contains
       (by_genre movies_df (select (year_pass movies_df ui) movies_df) ui) ui).
Proof.
  destruct (year_filter movies_df ui) as [v1| |] eqn:E1.
  - right. split; [exists v1; reflexivity|].
    unfold filtered_movies_with. rewrite E1. unfold bind at 1.
    pose proof (year_filter_keeps _ _ E1) as ->.
    rewrite genre_filter_eq by reflexivity. reflexivity.
  - left. exists e. split; auto. unfold filtered_movies_with. rewrite E1. reflexivity.
  - exfalso.
    destruct (year_filter_outcome movies_df ui)
      as [[_ H] | [(_ & _ & H) | (_ & b & _ & [[_ H] | [_ H]])]];
      rewrite H in E1; discriminate.
Qed.



(** ** C1: an empty collection and a search term *)

(** C1, at the failing input: on the table [pd.DataFrame([])], which has no
    row and no column, a search for "x" reads the missing [title] column;
    line 91 raises [KeyError] and no view is produced, where the claim
    promises an empty view.  The same happens on the fallback table when the
    year range leaves no movie and a genre is ticked: the genre stage hands
    on a table without columns. *)
Theorem search_raises_key_error :
  filtered_movies empty_table (searching "x") = Raise (KeyError "title") /\
  filtered_movies fallback nothing_left = Raise (KeyError "title").
Proof.
  split; vm_compute; reflexivity.
Qed.

(** ** C2: a failed fetch yields the fallback collection *)

Lemma load_movie_data_returns (net : Remote) : returns (load_movie_data net).
Proof.
  unfold returns, load_movie_data. destruct net; simpl; eauto.
Qed.

(** C2: whenever a call of the [try] block raises, whatever the exception,
    [load_movie_data] does not raise: it returns the fixed table of 10
    records, each with title, year and genres and without cast, among them
    "The Godfather" of 1972. *)
Theorem load_failure_gives_fallback (net : Remote) (e : exn) :
  try_body net = Raise e ->
  load_movie_data net = Ok (fallback, [st_error "Error loading data: " e]) /\
  len fallback = 10%nat /\
  Forall populated (rows fallback) /\
  has_column "cast" fallback = false /\
  exists r, In r (rows fallback) /\ title r = Some "The Godfather" /\ year r = Some 1972.
Proof.
  intros Hfail. split.
  - unfold load_movie_data. rewrite Hfail. reflexivity.
  - split; [reflexivity|]. split; [|split; [reflexivity|]].
    + unfold fallback, populated. simpl.
      repeat constructor; simpl; eauto; try discriminate;
        try (eexists; split; [reflexivity | discriminate]).
    + exists (movie "The Godfather" 1972 ["Crime"; "Drama"]).
      simpl. auto.
Qed.

Lemma load_failure_gives_fallback_witness :
  load_movie_data (json_raises JSONDecodeError)
  = Ok (fallback, [st_error "Error loading data: " JSONDecodeError]).
Proof.
  apply (load_failure_gives_fallback (json_raises JSONDecodeError) eq_refl).
Defined.

(** ** C8: the nineties in the fallback collection *)

(** C8: on the fallback table, the year range (1990, 1999) with nothing else
    selected keeps exactly six records, of the years 1994, 1994, 1994, 1999,
    1990 and 1991. *)
Theorem fallback_nineties :
  exists view,
    filtered_movies fallback nineties = Ok view /\
    len view = 6%nat /\
    map year (rows view)
    = [Some 1994; Some 1994; Some 1994; Some 1999; Some 1990; Some 1991] /\
    map title (rows view)
    = [Some "The Shawshank Redemption"; Some "Pulp Fiction"; Some "Forrest Gump";
       Some "The Matrix"; Some "Goodfellas"; Some "The Silence of the Lambs"].
Proof.
  eexists. split; [vm_compute; reflexivity|]. repeat split.
Qed.

(** ** C9: a [year] column without a single year *)

(** C9, at the failing input: the table has a [year] column and its only
    record has no year; [min()] is [NaN], line 50 raises [ValueError], and
    the pipeline does not complete, whatever the sidebar holds. *)
Theorem missing_years_raise :
  year_bounds no_years = Raise ValueError /\
  forall ui, filtered_movies no_years ui = Raise ValueError.
Proof.
  split.
  - reflexivity.
  - intros ui. apply year_column_without_years.
    + reflexivity.
    + repeat constructor.
Qed.

(** ** C3: the genre stage *)

(** C3: when nothing is selected (or the widget is not drawn) the genre stage
    hands its input on unchanged; otherwise it returns, and the records it
    keeps are exactly the records of its input whose [genres] cell is a list
    sharing a label with the selection, compared by equality of strings, in
    their order; records with a missing or non-list cell are dropped, and
    nothing is raised. *)
Theorem genre_filter_spec (movies_df fm : DataFrame) (ui : Widgets) :
  columns fm = columns movies_df ->
  match selected_genres movies_df ui with
  | Some (g :: gs) =>
      exists view keep,
        (forall r, keep r = true <-> shares_genre (g :: gs) r) /\
        genre_filter movies_df fm ui = Ok view /\
        rows view = filter keep (rows fm)
  | _ => genre_filter movies_df fm ui = Ok fm
  end.
Proof.
  intros Hcols.
  pose proof (@genre_filter_eq movies_df fm ui Hcols) as Hrun.
  pose proof (by_genre_rows movies_df fm ui) as Hrows.
  unfold genre_pass in Hrows.
  destruct (selected_genres movies_df ui) as [[|g gs]|] eqn:Hsel.
  - rewrite Hrun. unfold by_genre. rewrite Hsel. reflexivity.
  - exists (by_genre movies_df fm ui), (fun r => genre_match (g :: gs) (genres r)).
    split; [intros r; apply genre_match_spec|]. auto.
  - rewrite Hrun. unfold by_genre. rewrite Hsel. reflexivity.
Qed.

Lemma genre_filter_spec_witness :
  exists view keep,
    (forall r, keep r = true <-> shares_genre ["Sci-Fi"] r) /\
    genre_filter fallback fallback (ticking ["Sci-Fi"; "Western"]) = Ok view /\
    rows view = filter keep (rows fallback).
Proof.
  exact (genre_filter_spec fallback fallback (ticking ["Sci-Fi"; "Western"]) eq_refl).
Defined.

(** ** C4: the title stage *)

Lemma parse_plain (l : list ascii) :
  Re.literal l = true -> Re.parse l = Re.Pattern (map Re.Lit l).
Proof.
  induction l as [|c l IH]; simpl; auto.
  rewrite andb_true_iff. intros [Hc Hl]. rewrite (IH Hl).
  destruct (Ascii.eqb c Re.backslash) eqn:Hb.
  { apply Ascii.eqb_eq in Hb. subst c. discriminate Hc. }
  destruct (Ascii.eqb c ".") eqn:Hd.
  { apply Ascii.eqb_eq in Hd. subst c. discriminate Hc. }
  destruct (Ascii.eqb c Re.open_brace).
  - apply negb_true_iff in Hc. rewrite Hc. reflexivity.
  - apply negb_true_iff in Hc. rewrite Hc. reflexivity.
Qed.

Lemma compile_plain (term : string) :
  plain term -> Re.compile term = Re.Pattern (map Re.Lit (chars term)).
Proof.
  unfold plain, Re.compile, chars. intros H.
  destruct (list_ascii_of_string term) as [|c rest] eqn:E; auto.
  assert (Hrep : Re.repeat_operator c = false).
  { destruct (Re.repeat_operator c) eqn:Hr; auto.
    unfold Re.repeat_operator in Hr. apply existsb_exists in Hr.
    destruct Hr as (x & Hx & Heq). apply Ascii.eqb_eq in Heq. subst x.
    simpl in Hx. destruct Hx as [<- | [<- | [<- | []]]]; discriminate H. }
  rewrite Hrep. apply parse_plain, H.
Qed.

Lemma match_here_literal (needle s : list ascii) :
  Re.match_here (map Re.Lit needle) s = true <->
  exists post, map Re.lower s = map Re.lower needle ++ post.
Proof.
  revert s. induction needle as [|c needle IH]; intros s; simpl.
  - split; eauto.
  - destruct s as [|d s]; simpl.
    + split; [discriminate | intros (post & H); discriminate].
    + rewrite andb_true_iff, IH, Ascii.eqb_eq. split.
      * intros (Hc & post & Hs). exists post. rewrite Hs. congruence.
      * intros (post & H). injection H as Hd Hs. split; eauto.
Qed.

Lemma search_literal (needle s : list ascii) :
  Re.search (map Re.Lit needle) s = true <->
  exists pre post, map Re.lower s = pre ++ map Re.lower needle ++ post.
Proof.
  induction s as [|d s IH]; simpl; rewrite orb_true_iff, match_here_literal.
  - split.
    + intros [(post & H) | H]; [|discriminate]. exists [], post. exact H.
    + intros (pre & post & H). left.
      destruct pre; [|discriminate]. exists post. exact H.
  - rewrite IH. split.
    + intros [(post & H) | (pre & post & H)].
      * exists [], post. exact H.
      * exists (Re.lower d :: pre), post. simpl. rewrite H. reflexivity.
    + intros (pre & post & H). destruct pre as [|x pre]; simpl in H.
      * left. exists post. exact H.
      * right. injection H as _ H. eauto.
Qed.






(** ** C5: filtering by the collection's own year range *)

(** C5, as stated, fails: a record without a year compares false with both
    ends of the range and is dropped. *)
Lemma record_without_year_is_dropped : ~ own_range_claim one_year_missing.
Proof.
  intros H. destruct (H eq_refl) as (lo & hi & Hb & Hrun).
  vm_compute in Hb. injection Hb as <- <-.
  specialize (Hrun (searching "")).
  assert (Hown : own_range 1990 2000 (searching "")).
  { unfold own_range. simpl. auto. }
  apply Hrun in Hown. vm_compute in Hown. discriminate.
Qed.

Lemma select_all_in (f : MovieRecord -> bool) (df : DataFrame) :
  (forall r, In r (rows df) -> f r = true) -> select f df = df.
Proof.
  intros H. unfold select. rewrite filter_all_true.
  - destruct df; reflexivity.
  - apply Forall_forall, H.
Qed.

(** The slider accepts the bounds of a table that has two different years,
    all of them safe integers. *)
Lemma slider_accepts_two_years (movies_df : DataFrame) (lo hi : Z) :
  year_bounds movies_df = Ok (lo, hi) ->
  (forall r v, In r (rows movies_df) -> year r = Some v -> js_safe v = true) ->
  (exists r1 r2 v1 v2,
     In r1 (rows movies_df) /\ In r2 (rows movies_df) /\
     year r1 = Some v1 /\ year r2 = Some v2 /\ v1 <> v2) ->
  slider_accepts (lo, hi) = true.
Proof.
  intros Hb Hsafe (r1 & r2 & v1 & v2 & H1 & H2 & Y1 & Y2 & Hne).
  apply year_bounds_inv in Hb. destruct Hb as (_ & Hlo & Hhi).
  assert (In1 : In (Some v1) (map year (rows movies_df))).
  { rewrite <- Y1. apply in_map, H1. }
  assert (In2 : In (Some v2) (map year (rows movies_df))).
  { rewrite <- Y2. apply in_map, H2. }
  pose proof (series_min_le _ Hlo _ In1). pose proof (series_min_le _ Hlo _ In2).
  pose proof (series_max_ge _ Hhi _ In1). pose proof (series_max_ge _ Hhi _ In2).
  destruct (@in_year_column movies_df lo (series_min_attained _ Hlo)) as (rl & Hrl & Yl).
  destruct (@in_year_column movies_df hi (series_max_attained _ Hhi)) as (rh & Hrh & Yh).
  unfold slider_accepts. simpl fst. simpl snd.
  rewrite (Hsafe rl lo Hrl Yl), (Hsafe rh hi Hrh Yh), !andb_true_r.
  apply Z.ltb_lt. lia.
Qed.

(** C5, amended: when the collection has a [year] column, a year on every
    record, at least two different years (the slider is not drawn on equal
    bounds) and no year beyond the integers a widget accepts, filtering by
    its own minimum and maximum year with no genre ticked and no search term
    returns the collection unchanged. *)
Theorem own_range_identity (movies_df : DataFrame) :
  Forall (fun r => exists v, year r = Some v /\ js_safe v = true) (rows movies_df) ->
  (exists r1 r2 v1 v2,
     In r1 (rows movies_df) /\ In r2 (rows movies_df) /\
     year r1 = Some v1 /\ year r2 = Some v2 /\ v1 <> v2) ->
  own_range_claim movies_df.
Proof.
  intros Hall Htwo Hcol. rewrite Forall_forall in Hall.
  assert (Hsome : exists r v, In r (rows movies_df) /\ year r = Some v).
  { destruct Htwo as (r1 & _ & v1 & _ & H1 & _ & Y1 & _). eauto. }
  destruct (year_bounds_ready movies_df Hcol Hsome) as (lo & hi & Hb & Hlo & Hhi).
  exists lo, hi. split; [exact Hb|].
  intros ui (Hslider & Hticks & Hterm).
  assert (Hacc : slider_accepts (lo, hi) = true).
  { apply (slider_accepts_two_years movies_df Hb); auto.
    intros r v Hr Hv. destruct (Hall r Hr) as (v' & Hv' & Hs). congruence. }
  assert (Hyear : year_filter movies_df ui = Ok movies_df).
  { destruct (year_filter_outcome movies_df ui)
      as [[Hno _] | [(_ & Hnone & _) | (_ & b & Hb' & [[Hrej _] | [_ H]])]].
    - congruence.
    - destruct Hsome as (r & v & Hr & Hv). rewrite Forall_forall in Hnone.
      apply Hnone in Hr. congruence.
    - congruence.
    - rewrite H. f_equal. apply select_all_in. intros r Hr.
      unfold year_pass. rewrite (@year_range_some movies_df ui (lo, hi) Hcol Hb).
      assert (Hrange : slider (fst (lo, hi)) (snd (lo, hi)) (lo, hi) (slider_choice ui)
                       = (lo, hi)).
      { destruct Hslider as [-> | ->]; reflexivity. }
      rewrite Hrange. destruct (Hall r Hr) as (v & Hv & _).
      unfold in_range. rewrite Hv.
      assert (Hv' : In (Some v) (map year (rows movies_df))).
      { rewrite <- Hv. apply in_map, Hr. }
      pose proof (series_min_le _ Hlo _ Hv').
      pose proof (series_max_ge _ Hhi _ Hv').
      apply andb_true_iff. split; apply Z.leb_le; assumption. }
  unfold filtered_movies. rewrite Hyear. unfold bind at 1.
  rewrite (genre_filter_nothing_ticked movies_df movies_df ui Hticks). unfold bind.
  apply title_filter_inactive. unfold active_search.
  destruct (text_input_value ui) as [term|]; auto.
  rewrite Hterm. reflexivity.
Qed.

(** On a table whose years are all the same the slider is refused and no
    view is produced. *)
Lemma one_year_table_raises (ui : Widgets) :
  filtered_movies one_movie ui = Raise StreamlitAPIException.
Proof.
  destruct (year_filter_outcome one_movie ui)
    as [[Hno _] | [(_ & Hnone & _) | (_ & b & Hb & [[_ H] | [Hacc _]])]].
  - discriminate Hno.
  - inversion Hnone as [|? ? Hy _]. discriminate Hy.
  - unfold filtered_movies. rewrite H. reflexivity.
  - assert (b = (2000, 2000)) by (vm_compute in Hb; congruence). subst b.
    discriminate Hacc.
Qed.

Lemma own_range_identity_witness : own_range_claim fallback.
Proof.
  apply own_range_identity.
  - unfold fallback, movie. simpl rows.
    repeat constructor; eexists; split; reflexivity.
  - exists (movie "The Godfather" 1972 ["Crime"; "Drama"]),
           (movie "Interstellar" 2014 ["Adventure"; "Drama"; "Sci-Fi"]), 1972, 2014.
    simpl. repeat split; auto 12. discriminate.
Defined.

(** ** C6: the random pick *)

Lemma random_movie_cases (filtered : DataFrame) (draw : nat) :
  (rows filtered = [] /\ random_movie filtered draw = Ok (None, no_movies)) \/
  (exists r,
     nth_error (rows filtered) (draw mod len filtered) = Some r /\
     random_movie filtered draw = Ok (Some r, st_success "Here's your recommendation!")).
Proof.
  unfold random_movie, sample_one, len.
  destruct (rows filtered) as [|r0 rs] eqn:Hrows.
  - left. auto.
  - right. set (n := List.length (r0 :: rs)).
    assert (Hpos : (0 <? n)%nat = true) by reflexivity.
    assert (Hlt : (draw mod n < n)%nat).
    { apply Nat.mod_upper_bound. discriminate. }
    rewrite Hpos.
    destruct (nth_error (r0 :: rs) (draw mod n)) as [r|] eqn:Hnth.
    + exists r. split; reflexivity.
    + apply nth_error_None in Hnth. fold n in Hnth. lia.
Qed.

(** C6: the pick never raises; it returns no record, with the warning, exactly
    when the view is empty; on a view with records it returns one of them, and
    on a view of one record that record, whatever the generator draws. *)
Theorem random_movie_spec (filtered : DataFrame) (draw : nat) :
  exists picked banner,
    random_movie filtered draw = Ok (picked, banner) /\
    (picked = None <-> rows filtered = []) /\
    (banner = no_movies <-> rows filtered = []) /\
    (forall r, picked = Some r -> In r (rows filtered)) /\
    (forall r, rows filtered = [r] -> picked = Some r).
Proof.
  destruct (random_movie_cases filtered draw) as [[Hnil Hrun] | (r & Hnth & Hrun)].
  - exists None, no_movies. rewrite Hrun, Hnil.
    repeat split; auto; try discriminate.
  - exists (Some r), (st_success "Here's your recommendation!").
    pose proof (nth_error_In _ _ Hnth) as Hin.
    assert (Hne : rows filtered <> []).
    { intros E. rewrite E in Hin. destruct Hin. }
    rewrite Hrun. split; [reflexivity|]. split; [|split; [|split]].
    + split; [discriminate | congruence].
    + split; [discriminate | congruence].
    + intros r' E. injection E as <-. exact Hin.
    + intros r' E. rewrite E in Hin. destruct Hin as [<- | []]. reflexivity.
Qed.

(** ** C7: the genre counts add up *)

Lemma total_dict_set (counts : dict) (k : string) (v : nat) :
  (total (dict_set counts k v) + dict_get counts k 0 = total counts + v)%nat.
Proof.
  induction counts as [|[k' v'] counts IH]; simpl.
  - lia.
  - destruct (String.eqb k k'); simpl; lia.
Qed.

Lemma total_count_genre (counts : dict) (genre : string) :
  total (count_genre counts genre) = S (total counts).
Proof.
  unfold count_genre.
  pose proof (total_dict_set counts genre (dict_get counts genre 0 + 1)). lia.
Qed.

Lemma total_count_list (l : list string) (counts : dict) :
  total (fold_left count_genre l counts) = (total counts + List.length l)%nat.
Proof.
  revert counts. induction l as [|g l IH]; intros counts; simpl.
  - lia.
  - rewrite IH, total_count_genre. lia.
Qed.

Lemma total_count_column (col : list cell) (counts : dict) :
  total (fold_left
           (fun counts genres_list =>
              match genres_list with
              | ListOf l => fold_left count_genre l counts
              | _ => counts
              end) (dropna col) counts)
  = (total counts
     + list_sum (map (fun x => match x with
                               | ListOf l => List.length l
                               | _ => 0%nat
                               end) col))%nat.
Proof.
  revert counts. induction col as [|x col IH]; intros counts; simpl.
  - lia.
  - destruct x as [|l|s]; simpl; rewrite IH; try rewrite total_count_list; lia.
Qed.

(** C7: when the table has a [genres] column the counts are computed, and
    summed over all labels they equal the number of (record, genre) pairs:
    the sum, over the records whose [genres] cell is a list, of the length of
    that list. *)
Theorem genre_counts_total (movies_df : DataFrame) :
  has_column "genres" movies_df = true ->
  exists counts,
    genre_counts movies_df = Some counts /\
    total counts = pairs movies_df.
Proof.
  intros Hcol. unfold genre_counts. rewrite Hcol.
  eexists. split; [reflexivity|].
  rewrite total_count_column. unfold pairs. rewrite map_map. reflexivity.
Qed.

Lemma genre_counts_total_witness :
  exists counts, genre_counts fallback = Some counts /\ total counts = 20%nat.
Proof.
  exact (genre_counts_total fallback eq_refl).
Defined.

(** * Further properties of the script *)

(** ** The slider bounds (lines 50-51) *)

(** The bounds the slider is drawn with are years of the table: the lower one
    is the year of some record, so is the upper one, the lower is not above
    the upper, and every year of the table lies between them. *)
Theorem year_bounds_attained (movies_df : DataFrame) (lo hi : Z) :
  year_bounds movies_df = Ok (lo, hi) ->
  lo <= hi /\
  (exists r, In r (rows movies_df) /\ year r = Some lo) /\
  (exists r, In r (rows movies_df) /\ year r = Some hi) /\
  (forall r v, In r (rows movies_df) -> year r = Some v -> lo <= v <= hi).
Proof.
  intros H. apply year_bounds_inv in H. destruct H as (_ & Hlo & Hhi).
  pose proof (series_min_attained _ Hlo) as Alo.
  pose proof (series_max_attained _ Hhi) as Ahi.
  split; [exact (series_max_ge _ Hhi _ Alo)|].
  split; [apply in_year_column, Alo|].
  split; [apply in_year_column, Ahi|].
  intros r v Hr Hv.
  assert (Hin : In (Some v) (map year (rows movies_df))).
  { rewrite <- Hv. apply in_map, Hr. }
  split; [exact (series_min_le _ Hlo _ Hin) | exact (series_max_ge _ Hhi _ Hin)].
Qed.

Lemma year_bounds_attained_witness :
  1972 <= 2014 /\
  (exists r, In r (rows fallback) /\ year r = Some 1972) /\
  (exists r, In r (rows fallback) /\ year r = Some 2014) /\
  (forall r v, In r (rows fallback) -> year r = Some v -> 1972 <= v <= 2014).
Proof.
  exact (year_bounds_attained fallback eq_refl).
Defined.

(** ** What the view holds (lines 49-92) *)

(** Whenever the pipeline returns, whatever [str.contains] makes of the
    search term, the records of the view are records of the collection, in
    the order of the collection, each of them passes the year condition and
    the genre condition, and without a search term the view holds exactly
    the records that pass both.  The slider bounds and the genres offered are
    those of the whole collection. *)
Theorem filtered_movies_keeps
    (contains : list (option string) -> string -> result (list bool))
    (movies_df view : DataFrame) (ui : Widgets) :
  filtered_movies_with contains movies_df ui = Ok view ->
  subseq (rows view) (rows movies_df) /\
  (forall r, In r (rows view) ->
             year_pass movies_df ui r = true /\ genre_pass movies_df ui r = true) /\
  (active_search ui = None ->
   rows view = filter (year_and_genre movies_df ui) (rows movies_df)).
Proof.
  intros Hrun.
  destruct (filtered_movies_with_steps contains movies_df ui) as [(e & _ & H) | [_ H]];
    rewrite H in Hrun; [discriminate|].
  apply title_filter_with_rows in Hrun. destruct Hrun as [Hsub Hsame].
  rewrite by_genre_of_year in Hsub.
  split; [|split].
  - eapply subseq_trans; [exact Hsub | apply subseq_filter].
  - intros r Hr. apply (subseq_In r Hsub) in Hr. apply filter_In in Hr.
    destruct Hr as [_ Hr]. unfold year_and_genre in Hr.
    apply andb_true_iff in Hr. exact Hr.
  - intros Hnone. rewrite (Hsame Hnone). apply by_genre_of_year.
Qed.

Lemma filtered_movies_keeps_witness :
  subseq (rows (select (passes fallback (ticking ["Crime"])) fallback)) (rows fallback) /\
  (forall r, In r (rows (select (passes fallback (ticking ["Crime"])) fallback)) ->
             year_pass fallback (ticking ["Crime"]) r = true /\
             genre_pass fallback (ticking ["Crime"]) r = true) /\
  (active_search (ticking ["Crime"]) = None ->
   rows (select (passes fallback (ticking ["Crime"])) fallback)
   = filter (year_and_genre fallback (ticking ["Crime"])) (rows fallback)).
Proof.
  apply (@filtered_movies_keeps str_contains fallback _ (ticking ["Crime"])).
  vm_compute. reflexivity.
Defined.

(** ** Widening a criterion never loses a record *)














(** ** The search ignores the case of the term (lines 89-92) *)

Lemma search_same_lower (n1 n2 s : list ascii) :
  map Re.lower n1 = map Re.lower n2 ->
  Re.search (map Re.Lit n1) s = Re.search (map Re.Lit n2) s.
Proof.
  intros H. apply Bool.eq_true_iff_eq. rewrite !search_literal, H. reflexivity.
Qed.

Lemma title_filter_same_lower (fm : DataFrame) (ui1 ui2 : Widgets) (t1 t2 : string) :
  text_input_value ui1 = Some t1 ->
  text_input_value ui2 = Some t2 ->
  plain t1 -> plain t2 ->
  map Re.lower (chars t1) = map Re.lower (chars t2) ->
  title_filter fm ui1 = title_filter fm ui2.
Proof.
  intros H1 H2 P1 P2 Hlow. unfold title_filter. rewrite H1, H2.
  assert (Htruthy : truthy (Some t1) = truthy (Some t2)).
  { destruct t1, t2; try reflexivity; discriminate Hlow. }
  rewrite Htruthy. destruct (truthy (Some t2)); auto.
  unfold getitem. destruct (has_column "title" fm); auto. unfold bind at 1 3.
  unfold str_contains. rewrite (compile_plain P1), (compile_plain P2).
  unfold bind. do 2 f_equal. apply map_ext. intros [t|]; auto.
  apply search_same_lower, Hlow.
Qed.

(** Two search terms without special characters that differ only in the case
    of their letters give the same result, on every collection and with any
    slider and genre selection. *)
Theorem search_ignores_case (movies_df : DataFrame) (ui1 ui2 : Widgets)
    (t1 t2 : string) :
  slider_choice ui1 = slider_choice ui2 ->
  multiselect_choice ui1 = multiselect_choice ui2 ->
  text_input_value ui1 = Some t1 ->
  text_input_value ui2 = Some t2 ->
  plain t1 -> plain t2 ->
  map Re.lower (chars t1) = map Re.lower (chars t2) ->
  filtered_movies movies_df ui1 = filtered_movies movies_df ui2.
Proof.
  intros Hslider Hticks H1 H2 P1 P2 Hlow. unfold filtered_movies.
  assert (Hy : year_filter movies_df ui1 = year_filter movies_df ui2).
  { unfold year_filter. rewrite Hslider. reflexivity. }
  rewrite Hy. destruct (year_filter movies_df ui2) as [by_year| |]; auto.
  unfold bind at 1 3.
  assert (Hg : genre_filter movies_df by_year ui1 = genre_filter movies_df by_year ui2).
  { unfold genre_filter, selected_genres. rewrite Hticks. reflexivity. }
  rewrite Hg. destruct (genre_filter movies_df by_year ui2) as [by_genre| |]; auto.
  unfold bind. apply title_filter_same_lower with t1 t2; assumption.
Qed.

Lemma search_ignores_case_witness :
  filtered_movies fallback (searching "the god")
  = filtered_movies fallback (searching "THE God").
Proof.
  apply (@search_ignores_case fallback (searching "the god") (searching "THE God")
           "the god" "THE God"); reflexivity.
Defined.

(** ** An untouched sidebar still drops the records without a year *)

(** Lines 49-59: when the table has a [year] column whose bounds the slider
    accepts (two different years at least, none beyond the integers a widget
    accepts), the view under an untouched sidebar holds exactly the records
    that have a year, in order: a comparison with a missing year is false at
    both ends of the default range. *)
Theorem untouched_sidebar_keeps_dated (movies_df : DataFrame) (ui : Widgets) :
  has_column "year" movies_df = true ->
  (exists bounds, year_bounds movies_df = Ok bounds /\ slider_accepts bounds = true) ->
  slider_choice ui = None ->
  multiselect_choice ui = [] ->
  truthy (text_input_value ui) = false ->
  filtered_movies movies_df ui = Ok (select dated movies_df).
Proof.
  intros Hcol ([lo hi] & Hb & Hacc) Hslider Hticks Hterm.
  destruct (year_bounds_inv _ Hb) as (_ & Hlo & Hhi).
  assert (Hyear : year_filter movies_df ui = Ok (select dated movies_df)).
  { destruct (year_filter_outcome movies_df ui)
      as [[Hno _] | [(_ & Hall & _) | (_ & b & Hb' & [[Hrej _] | [_ H]])]].
    - congruence.
    - apply series_min_attained, in_year_column in Hlo.
      destruct Hlo as (r & Hr & Hv).
      rewrite Forall_forall in Hall. apply Hall in Hr. congruence.
    - congruence.
    - rewrite H. unfold select. do 2 f_equal.
      apply filter_ext_in. intros r Hr. unfold year_pass.
      rewrite (@year_range_some movies_df ui (lo, hi) Hcol Hb), Hslider.
      simpl. unfold in_range, dated.
      destruct (year r) as [v|] eqn:Hv; auto.
      assert (Hin : In (Some v) (map year (rows movies_df))).
      { rewrite <- Hv. apply in_map, Hr. }
      pose proof (series_min_le _ Hlo _ Hin).
      pose proof (series_max_ge _ Hhi _ Hin).
      apply andb_true_iff. split; apply Z.leb_le; assumption. }
  unfold filtered_movies. rewrite Hyear. unfold bind at 1.
  rewrite (genre_filter_nothing_ticked movies_df (select dated movies_df) ui Hticks).
  unfold bind. apply title_filter_inactive. unfold active_search.
  destruct (text_input_value ui) as [term|]; auto.
  rewrite Hterm. reflexivity.
Qed.

Lemma untouched_sidebar_keeps_dated_witness :
  filtered_movies one_year_missing (searching "")
  = Ok (select dated one_year_missing).
Proof.
  apply untouched_sidebar_keeps_dated; try reflexivity.
  exists (1990, 2000). split; reflexivity.
Defined.

(** ** The genre counts, label by label (lines 166-170) *)

Lemma dict_get_set (d : dict) (k k' : string) (v default : nat) :
  dict_get (dict_set d k v) k' default
  = if String.eqb k' k then v else dict_get d k' default.
Proof.
  induction d as [|[k0 v0] d IH]; simpl.
  - reflexivity.
  - destruct (String.eqb k k0) eqn:E; simpl.
    + apply String.eqb_eq in E. subst k0.
      destruct (String.eqb k' k); reflexivity.
    + rewrite IH. destruct (String.eqb k' k0) eqn:E0; auto.
      apply String.eqb_eq in E0. subst k0.
      rewrite String.eqb_sym, E. reflexivity.
Qed.

Lemma dict_get_count_list (l : list string) (counts : dict) (g : string) :
  dict_get (fold_left count_genre l counts) g 0
  = (dict_get counts g 0 + count_occ string_dec l g)%nat.
Proof.
  revert counts. induction l as [|x l IH]; intros counts; simpl.
  - lia.
  - rewrite IH. unfold count_genre. rewrite dict_get_set.
    destruct (string_dec x g) as [-> | Hne].
    + rewrite String.eqb_refl. lia.
    + assert (E : String.eqb g x = false).
      { apply String.eqb_neq. congruence. }
      rewrite E. lia.
Qed.

Lemma dict_get_count_column (col : list cell) (counts : dict) (g : string) :
  dict_get (fold_left
              (fun counts genres_list =>
                 match genres_list with
                 | ListOf l => fold_left count_genre l counts
                 | _ => counts
                 end) (dropna col) counts) g 0
  = (dict_get counts g 0
     + list_sum (map (fun x => match x with
                               | ListOf l => count_occ string_dec l g
                               | _ => 0%nat
                               end) col))%nat.
Proof.
  revert counts. induction col as [|x col IH]; intros counts; simpl.
  - lia.
  - destruct x as [|l|s]; simpl; rewrite IH; try rewrite dict_get_count_list; lia.
Qed.

(** When the table has a [genres] column, the count stored under a label is
    the number of times the label occurs in the lists of the column, and a
    label that occurs nowhere reads as 0. *)
Theorem genre_counts_per_label (movies_df : DataFrame) :
  has_column "genres" movies_df = true ->
  exists counts,
    genre_counts movies_df = Some counts /\
    forall g, dict_get counts g 0 = occurrences g movies_df.
Proof.
  intros Hcol. unfold genre_counts. rewrite Hcol.
  eexists. split; [reflexivity|]. intros g.
  rewrite dict_get_count_column. unfold occurrences. rewrite map_map. reflexivity.
Qed.

Lemma genre_counts_per_label_witness :
  exists counts,
    genre_counts fallback = Some counts /\
    forall g, dict_get counts g 0 = occurrences g fallback.
Proof.
  exact (genre_counts_per_label fallback eq_refl).
Defined.

(** ** The labels of the histogram are the options of the multiselect *)

Lemma keys_dict_set (d : dict) (k : string) (v : nat) :
  map fst (dict_set d k v) = ListSet.set_add string_dec k (map fst d).
Proof.
  induction d as [|[k0 v0] d IH]; simpl.
  - reflexivity.
  - destruct (string_dec k k0) as [-> | Hne].
    + rewrite String.eqb_refl. reflexivity.
    + assert (E : String.eqb k k0 = false) by (apply String.eqb_neq; exact Hne).
      rewrite E. simpl. rewrite IH. reflexivity.
Qed.

Lemma keys_count_list (l : list string) (counts : dict) :
  map fst (fold_left count_genre l counts) = set_update (map fst counts) l.
Proof.
  unfold set_update. revert counts. induction l as [|g l IH]; intros counts; simpl.
  - reflexivity.
  - rewrite IH. unfold count_genre. rewrite keys_dict_set. reflexivity.
Qed.

Lemma keys_count_column (cells : list cell) (counts : dict) :
  map fst (fold_left
             (fun counts genres_list =>
                match genres_list with
                | ListOf l => fold_left count_genre l counts
                | _ => counts
                end) cells counts)
  = fold_left
      (fun acc genres_list =>
         match genres_list with
         | ListOf l => set_update acc l
         | _ => acc
         end) cells (map fst counts).
Proof.
  revert counts. induction cells as [|x cells IH]; intros counts; simpl.
  - reflexivity.
  - rewrite IH. destruct x as [|l|s]; try reflexivity.
    rewrite keys_count_list. reflexivity.
Qed.

Lemma positive_dict_set (d : dict) (k : string) (v : nat) :
  (1 <= v)%nat ->
  Forall (fun kv => (1 <= snd kv)%nat) d ->
  Forall (fun kv => (1 <= snd kv)%nat) (dict_set d k v).
Proof.
  intros Hv. induction 1 as [|[k0 v0] d H0 Hd IH]; simpl.
  - repeat constructor. exact Hv.
  - destruct (String.eqb k k0); constructor; simpl; auto.
Qed.

Lemma positive_count_column (cells : list cell) (counts : dict) :
  Forall (fun kv => (1 <= snd kv)%nat) counts ->
  Forall (fun kv => (1 <= snd kv)%nat)
    (fold_left
       (fun counts genres_list =>
          match genres_list with
          | ListOf l => fold_left count_genre l counts
          | _ => counts
          end) cells counts).
Proof.
  revert counts. induction cells as [|x cells IH]; intros counts H; simpl; auto.
  apply IH. destruct x as [|l|s]; auto.
  clear IH. revert counts H. induction l as [|g l IHl]; intros counts H; simpl; auto.
  apply IHl. unfold count_genre. apply positive_dict_set; [lia | exact H].
Qed.

Lemma set_update_NoDup (l s : list string) : NoDup s -> NoDup (set_update s l).
Proof.
  unfold set_update. revert s. induction l as [|g l IH]; intros s H; simpl; auto.
  apply IH, ListSet.set_add_nodup, H.
Qed.

Lemma all_genres_NoDup (col : list cell) : NoDup (all_genres col).
Proof.
  unfold all_genres.
  assert (G : forall cells acc, NoDup acc ->
    NoDup (fold_left
             (fun acc genres_list =>
                match genres_list with
                | ListOf l => set_update acc l
                | _ => acc
                end) cells acc)).
  { induction cells as [|x cells IH]; intros acc H; simpl; auto.
    apply IH. destruct x; auto using set_update_NoDup. }
  apply G. constructor.
Qed.

(** Lines 65-68 and 166-170 agree: the histogram has one entry per label, its
    labels are exactly the options of the multiselect, every entry counts at
    least one occurrence, and the histogram is empty exactly when there is no
    option to offer. *)
Theorem histogram_labels (movies_df : DataFrame) :
  has_column "genres" movies_df = true ->
  exists counts,
    genre_counts movies_df = Some counts /\
    NoDup (map fst counts) /\
    (forall g, In g (map fst counts) <-> In g (options movies_df)) /\
    Forall (fun kv => (1 <= snd kv)%nat) counts /\
    (counts = [] <-> options movies_df = []).
Proof.
  intros Hcol. unfold genre_counts. rewrite Hcol.
  eexists. split; [reflexivity|].
  set (counts := fold_left _ _ _).
  assert (Hkeys : map fst counts = all_genres (map genres (rows movies_df))).
  { unfold counts. rewrite keys_count_column. reflexivity. }
  assert (Hmem : forall g, In g (map fst counts) <-> In g (options movies_df)).
  { intros g. unfold options. rewrite sorted_In, Hkeys. reflexivity. }
  split; [rewrite Hkeys; apply all_genres_NoDup|].
  split; [exact Hmem|].
  split; [apply positive_count_column; constructor|].
  split; intros E.
  - destruct (options movies_df) as [|g o] eqn:Ho; auto.
    exfalso. assert (Hin : In g (map fst counts)) by (apply Hmem; left; reflexivity).
    rewrite E in Hin. exact Hin.
  - destruct counts as [|[k v] c]; auto.
    exfalso. assert (Hin : In k (options movies_df)) by (apply Hmem; left; reflexivity).
    rewrite E in Hin. exact Hin.
Qed.

Lemma histogram_labels_witness :
  exists counts,
    genre_counts fallback = Some counts /\
    NoDup (map fst counts) /\
    (forall g, In g (map fst counts) <-> In g (options fallback)) /\
    Forall (fun kv => (1 <= snd kv)%nat) counts /\
    (counts = [] <-> options fallback = []).
Proof.
  exact (histogram_labels fallback eq_refl).
Defined.

(** ** The options of the multiselect (lines 65-73) *)

Lemma insert_sorted_Sorted (x : string) (l : list string) :
  Sorted (fun a b => String.leb a b = true) l ->
  Sorted (fun a b => String.leb a b = true) (insert_sorted x l).
Proof.
  induction 1 as [|h t Ht IH Hhd]; simpl.
  - repeat constructor.
  - destruct (String.leb x h) eqn:E.
    + repeat constructor; assumption.
    + assert (Hhx : String.leb h x = true).
      { destruct (String.leb_total x h) as [H | H]; congruence. }
      constructor; [exact IH|].
      destruct Hhd as [|h2 t' Hh2]; simpl.
      * constructor. exact Hhx.
      * destruct (String.leb x h2); constructor; assumption.
Qed.

Lemma insert_sorted_NoDup (x : string) (l : list string) :
  ~ In x l -> NoDup l -> NoDup (insert_sorted x l).
Proof.
  intros Hx Hl. induction Hl as [|h t Hh Ht IH]; simpl.
  - repeat constructor. exact Hx.
  - destruct (String.leb x h).
    + constructor; [exact Hx | constructor; assumption].
    + constructor.
      * rewrite insert_sorted_In. intros [-> | H]; [|contradiction].
        apply Hx. left. reflexivity.
      * apply IH. intros H. apply Hx. right. exact H.
Qed.

(** The options offered are in ascending order, without repetition, and are
    exactly the labels that occur in some record's list of genres; cells that
    are missing or are not lists contribute nothing. *)
Theorem options_sorted (movies_df : DataFrame) :
  Sorted (fun a b => String.leb a b = true) (options movies_df) /\
  NoDup (options movies_df) /\
  (forall g,
     In g (options movies_df) <->
     exists r l, In r (rows movies_df) /\ genres r = ListOf l /\ In g l).
Proof.
  unfold options.
  pose proof (all_genres_NoDup (map genres (rows movies_df))) as Hnodup.
  split; [|split].
  - induction (all_genres (map genres (rows movies_df))) as [|x s IH]; simpl.
    + constructor.
    + inversion Hnodup; subst. apply insert_sorted_Sorted. auto.
  - induction Hnodup as [|x s Hx Hs IH]; simpl.
    + constructor.
    + apply insert_sorted_NoDup; [|exact IH]. rewrite sorted_In. exact Hx.
  - intros g. rewrite sorted_In, all_genres_In. split.
    + intros (l & Hl & Hg). apply in_map_iff in Hl.
      destruct Hl as (r & Hr & Hin). eauto.
    + intros (r & l & Hin & Hr & Hg). exists l. split; auto.
      rewrite <- Hr. apply in_map, Hin.
Qed.

(** ** Every record of the view can be drawn (lines 133-134) *)

(** No record of the view is out of reach of the pick: for each of them some
    output of the generator selects it. *)
Theorem every_record_can_be_picked (filtered : DataFrame) (r : MovieRecord) :
  In r (rows filtered) ->
  exists draw,
    random_movie filtered draw
    = Ok (Some r, st_success "Here's your recommendation!").
Proof.
  intros Hin. apply In_nth_error in Hin. destruct Hin as [i Hi].
  assert (Hlt : (i < len filtered)%nat).
  { unfold len. apply nth_error_Some. congruence. }
  exists i.
  destruct (random_movie_cases filtered i) as [[Hnil _] | (r' & Hnth & Hrun)].
  - unfold len in Hlt. rewrite Hnil in Hlt. simpl in Hlt. lia.
  - rewrite Nat.mod_small in Hnth by exact Hlt.
    rewrite Hrun. congruence.
Qed.

Lemma every_record_can_be_picked_witness :
  exists draw,
    random_movie fallback draw
    = Ok (Some (movie "Inception" 2010 ["Action"; "Sci-Fi"]),
          st_success "Here's your recommendation!").
Proof.
  apply (@every_record_can_be_picked fallback).
  simpl. auto 10.
Defined.

(** ** The movie list and the card of the pick (lines 104-118, 133-146) *)

Lemma render_with_title (df : DataFrame) (limit : nat) (r : MovieRecord) :
  has_column "title" df = true ->
  exists card, render df limit r = Ok card /\ card_heading card = title r.
Proof.
  intros Hcol. unfold render. rewrite Hcol. eexists. split; reflexivity.
Qed.

Lemma render_without_title (df : DataFrame) (limit : nat) (r : MovieRecord) :
  has_column "title" df = false ->
  render df limit r = Raise (KeyError "title").
Proof.
  intros Hcol. unfold render. rewrite Hcol. reflexivity.
Qed.

Lemma for_each_render (df : DataFrame) (limit : nat) (l : list MovieRecord) :
  has_column "title" df = true ->
  exists cards,
    for_each (render df limit) l = Ok cards /\
    map card_heading cards = map title l.
Proof.
  intros Hcol. induction l as [|r l (cards & Hrun & Hhead)]; simpl.
  - exists []. auto.
  - destruct (render_with_title df limit r Hcol) as (card & Hr & Hc).
    rewrite Hr, Hrun. simpl. exists (card :: cards). simpl. split; congruence.
Qed.

(** With a [title] column the movie list shows one card for each of the first
    [num_display] records of the view, or for all of them if there are
    fewer, in the order of the view, each headed by its record's title. *)
Theorem browse_shows_head (filtered : DataFrame) (num_display : nat) :
  has_column "title" filtered = true ->
  exists cards,
    browse filtered num_display = Ok cards /\
    List.length cards = Nat.min num_display (len filtered) /\
    map card_heading cards = map title (firstn num_display (rows filtered)).
Proof.
  intros Hcol. unfold browse, head. simpl.
  destruct (for_each_render filtered 3 (firstn num_display (rows filtered)) Hcol)
    as (cards & Hrun & Hhead).
  exists cards. repeat split; auto.
  rewrite <- (length_map card_heading), Hhead, length_map, length_firstn.
  reflexivity.
Qed.

Lemma browse_shows_head_witness :
  exists cards,
    browse fallback 5 = Ok cards /\
    List.length cards = Nat.min 5 (len fallback) /\
    map card_heading cards = map title (firstn 5 (rows fallback)).
Proof.
  exact (browse_shows_head fallback 5 eq_refl).
Defined.

(** Printing raises in one case only: the table has no [title] column and
    there is a row to print.  The movie list raises [KeyError] exactly when
    the column is missing, the view has a record and at least one card is
    asked for; the pick raises it exactly when the column is missing and the
    view has a record.  An empty view is printed without error. *)
Theorem printing_raises (filtered : DataFrame) (e : exn) :
  (forall num_display,
     browse filtered num_display = Raise e <->
     e = KeyError "title" /\ has_column "title" filtered = false /\
     rows filtered <> [] /\ num_display <> 0%nat) /\
  (forall draw,
     pick_tab filtered draw = Raise e <->
     e = KeyError "title" /\ has_column "title" filtered = false /\
     rows filtered <> []).
Proof.
  split.
  - intros n. unfold browse, head. simpl.
    destruct (has_column "title" filtered) eqn:Hcol.
    + destruct (for_each_render filtered 3 (firstn n (rows filtered)) Hcol)
        as (cards & Hrun & _).
      rewrite Hrun. split; [discriminate | intros (_ & H & _); discriminate].
    + destruct n as [|n]; simpl.
      { split; [discriminate | intros (_ & _ & _ & H); congruence]. }
      destruct (rows filtered) as [|r rs]; simpl.
      { split; [discriminate | intros (_ & _ & H & _); congruence]. }
      rewrite (render_without_title filtered 3 r Hcol). simpl.
      split.
      * intros H. injection H as <-. repeat split; discriminate.
      * intros (-> & _). reflexivity.
  - intros draw. unfold pick_tab.
    destruct (random_movie_cases filtered draw) as [[Hnil Hrun] | (r & Hnth & Hrun)];
      rewrite Hrun; simpl.
    + split; [discriminate | intros (_ & _ & H); congruence].
    + assert (Hne : rows filtered <> []).
      { intros E. rewrite E in Hnth. destruct (draw mod len filtered)%nat; discriminate. }
      destruct (has_column "title" filtered) eqn:Hcol.
      * destruct (render_with_title filtered 5 r Hcol) as (card & Hr & _).
        rewrite Hr. simpl. split; [discriminate | intros (_ & H & _); discriminate].
      * rewrite (render_without_title filtered 5 r Hcol). simpl. split.
        -- intros H. injection H as <-. auto.
        -- intros (-> & _). reflexivity.
Qed.

(** With a [title] column the pick never raises: on an empty view it shows
    the warning and no card, otherwise the card of a record of the view. *)
Theorem pick_tab_card (filtered : DataFrame) (draw : nat) :
  has_column "title" filtered = true ->
  (rows filtered = [] /\ pick_tab filtered draw = Ok (no_movies, None)) \/
  (exists r card,
     In r (rows filtered) /\
     render filtered 5 r = Ok card /\
     card_heading card = title r /\
     pick_tab filtered draw
     = Ok (st_success "Here's your recommendation!", Some card)).
Proof.
  intros Hcol. unfold pick_tab.
  destruct (random_movie_cases filtered draw) as [[Hnil Hrun] | (r & Hnth & Hrun)];
    rewrite Hrun; simpl.
  - left. auto.
  - right. destruct (render_with_title filtered 5 r Hcol) as (card & Hr & Hc).
    exists r, card. rewrite Hr. simpl.
    repeat split; auto. apply nth_error_In in Hnth. exact Hnth.
Qed.

Lemma pick_tab_card_witness :
  (rows fallback = [] /\ pick_tab fallback 7 = Ok (no_movies, None)) \/
  (exists r card,
     In r (rows fallback) /\
     render fallback 5 r = Ok card /\
     card_heading card = title r /\
     pick_tab fallback 7
     = Ok (st_success "Here's your recommendation!", Some card)).
Proof.
  exact (pick_tab_card fallback 7 eq_refl).
Defined.

(** ** The metrics of a run (lines 153-161) *)



(** ** The cache across reruns (lines 18-19 and 42-43) *)

Lemma script_fills_cache (cache : Cache) (inp : Input) :
  exists hit,
    fst (script cache inp) = Some hit /\
    loaded cache inp = Ok (fst hit) /\
    (forall h, cache = Some h -> hit = h).
Proof.
  unfold script, loaded, cached_load. destruct cache as [h|]; simpl.
  - exists h. repeat split; auto. congruence.
  - destruct (load_movie_data_returns (net inp)) as [ld Hld].
    rewrite Hld. simpl. exists ld. repeat split; auto. discriminate.
Qed.

Lemma rerun_all_filled (hit : DataFrame * list element) (inputs : list Input) :
  rerun_all (Some hit) inputs = Some hit.
Proof.
  unfold rerun_all. induction inputs as [|inp inputs IH]; simpl; auto.
Qed.

Lemma rerun_all_first (cache : Cache) (first : Input) (rest : list Input) :
  exists hit,
    rerun_all cache (first :: rest) = Some hit /\
    loaded cache first = Ok (fst hit).
Proof.
  destruct (script_fills_cache cache first) as (hit & Hc & Hl & _).
  exists hit. split; auto.
  unfold rerun_all. simpl. rewrite Hc. apply rerun_all_filled.
Qed.

(** The table is loaded once: after a first run and any number of further
    runs, the next run works on the table of the first run, whatever the
    network would answer by then. *)
Theorem reruns_share_the_table (cache : Cache) (first next : Input)
    (rest : list Input) :
  loaded (rerun_all cache (first :: rest)) next = loaded cache first.
Proof.
  destruct (rerun_all_first cache first rest) as (hit & Hc & Hl).
  rewrite Hc, Hl. reflexivity.
Qed.

(** A failed first fetch is cached like a successful one: when the first run
    starts with an empty cache and its fetch raises, every later run works on
    the fallback table, also when the network would deliver by then. *)
Theorem fallback_is_cached (first next : Input) (rest : list Input) (e : exn) :
  try_body (net first) = Raise e ->
  loaded (rerun_all None (first :: rest)) next = Ok fallback.
Proof.
  intros Hfail.
  destruct (rerun_all_first None first rest) as (hit & Hc & Hl).
  rewrite Hc. unfold loaded at 1. simpl.
  unfold loaded, cached_load, load_movie_data in Hl. rewrite Hfail in Hl.
  simpl in Hl. congruence.
Qed.

Lemma fallback_is_cached_witness :
  loaded
    (rerun_all None
       [ {| net := get_raises ConnectionError; ui := nineties;
            pick_clicked := false; draw := 0 |} ])
    {| net := delivers empty_table; ui := nineties;
       pick_clicked := true; draw := 3 |}
  = Ok fallback.
Proof.
  apply (@fallback_is_cached _ _ [] ConnectionError). reflexivity.
Defined.
